(** * Real-estate analysis chatbot: data processor and query parser

    A shallow embedding of [utils/data_processor.py]
    ([RealEstateDataProcessor]) and of the chat view of
    [chatbot/views.py] ([ChatQueryView]: [post], [_parse_query] and the
    two handlers).

    Modelling choices.

    - Text is [string] (a sequence of bytes, UTF-8 for the literals of the
      source).  [str.lower] and [str.capitalize] act on the ASCII letters and
      leave every other byte alone; [str.strip] removes the white space
      of Unicode, as its UTF-8 bytes.
    - A Python float is an extended rational [pyfloat]: a finite value is an
      exact canonical rational ([Qc]), and the special values [inf], [-inf]
      and [nan] are kept so that division by zero, empty means and
      comparisons with [nan] follow the source.  The rounding error of
      binary floating point is not modelled.
    - A pandas frame is a list of column names and a list of rows of cells.
      A cell is missing, text or a (finite) number.  The area column is read
      as text and the year, price and demand columns as numbers; a cell of
      the other kind is read as missing, and [typed] says that a frame has
      none.  The size column is whatever column line 141 of the data
      processor finds, a text column included, so its mean is modelled
      with the [TypeError] that pandas 2 raises on text.  On typed frames
      nothing else of the modelled code raises.  Column names are taken to
      be distinct, also after [load_data] has cleaned them: a lookup by
      name reads the first column of that name.
    - Reading the sheet either raises, with a message, or gives a frame
      ([excel]), the frame without columns for an empty sheet; the request
      of the chat view is the value of its key [query], if it has one.
    - A function that can raise returns [exn + A]. *)

From Stdlib Require Import QArith Qcanon Qround ZArith String Ascii List Lqa.
From stdpp Require Import base tactics option list sorting gmap strings pretty numbers.
From Corelib Require PrimFloat.

Local Open Scope string_scope.
Local Open Scope Z_scope.

(** ** Python strings *)

Module Py.

Definition is_upper (c : ascii) : bool :=
  let n := nat_of_ascii c in (65 <=? n)%nat && (n <=? 90)%nat.

Definition is_lower (c : ascii) : bool :=
  let n := nat_of_ascii c in (97 <=? n)%nat && (n <=? 122)%nat.

Definition lower_char (c : ascii) : ascii :=
  if is_upper c then ascii_of_nat (nat_of_ascii c + 32) else c.

Definition upper_char (c : ascii) : ascii :=
  if is_lower c then ascii_of_nat (nat_of_ascii c - 32) else c.

(** [s.lower()] *)
Fixpoint lower (s : string) : string :=
  match s with
  | EmptyString => EmptyString
  | String c s' => String (lower_char c) (lower s')
  end.

(** [s.capitalize()]: first character upper-cased, the rest lower-cased. *)
Definition capitalize (s : string) : string :=
  match s with
  | EmptyString => EmptyString
  | String c s' => String (upper_char c) (lower s')
  end.

(** [sub in s] *)
Fixpoint contains (sub s : string) : bool :=
  String.prefix sub s ||
  match s with
  | EmptyString => false
  | String _ s' => contains sub s'
  end.

(** [sep.join(l)] *)
Fixpoint join (sep : string) (l : list string) : string :=
  match l with
  | [] => ""
  | [x] => x
  | x :: l' => x ++ sep ++ join sep l'
  end.

(** [any(word in s for word in words)] *)
Definition any_in (words : list string) (s : string) : bool :=
  existsb (fun word => contains word s) words.

(** [next((x for x in l if p x), None)] *)
Definition next {A} (p : A -> bool) (l : list A) : option A := List.find p l.

(** [if x: ...] where [x] is [None] or a string: the empty string is
    false like [None]. *)
Definition if_ {A} (x : option string) (body : string -> A) : option A :=
  match x with
  | Some s => if String.eqb s "" then None else Some (body s)
  | None => None
  end.

(** [if x and y: ...] *)
Definition if_both (x y : option string) : option (string * string) :=
  match if_ x id, if_ y id with
  | Some a, Some b => Some (a, b)
  | _, _ => None
  end.

(** The white space of [str.isspace], which [str.strip] removes, on the
    UTF-8 bytes of a string.  One byte: tab to carriage return, the
    separators 28 to 31, and the space. *)
Definition is_space (c : ascii) : bool :=
  let n := nat_of_ascii c in
  ((9 <=? n)%nat && (n <=? 13)%nat) || ((28 <=? n)%nat && (n <=? 32)%nat).

(** Two bytes: U+0085 (C2 85) and U+00A0 (C2 A0). *)
Definition is_space2 (c1 c2 : ascii) : bool :=
  Ascii.eqb c1 "194" && (Ascii.eqb c2 "133" || Ascii.eqb c2 "160").

(** The last byte of U+2000 to U+200A, U+2028, U+2029 and U+202F, which
    all start with E2 80. *)
Definition is_general_space (c : ascii) : bool :=
  let n := nat_of_ascii c in
  ((128 <=? n)%nat && (n <=? 138)%nat) ||
  (n =? 168)%nat || (n =? 169)%nat || (n =? 175)%nat.

(** Three bytes: U+1680 (E1 9A 80), U+2000 to U+200A, U+2028, U+2029,
    U+202F (E2 80 ..), U+205F (E2 81 9F) and U+3000 (E3 80 80). *)
Definition is_space3 (c1 c2 c3 : ascii) : bool :=
  (Ascii.eqb c1 "225" && Ascii.eqb c2 "154" && Ascii.eqb c3 "128") ||
  (Ascii.eqb c1 "226" && Ascii.eqb c2 "128" && is_general_space c3) ||
  (Ascii.eqb c1 "226" && Ascii.eqb c2 "129" && Ascii.eqb c3 "159") ||
  (Ascii.eqb c1 "227" && Ascii.eqb c2 "128" && Ascii.eqb c3 "128").

(** [s.isspace() or s == ''] *)
Fixpoint blank (s : string) : bool :=
  match s with
  | EmptyString => true
  | String c1 s1 =>
      if is_space c1 then blank s1
      else
        match s1 with
        | String c2 s2 =>
            if is_space2 c1 c2 then blank s2
            else
              match s2 with
              | String c3 s3 => if is_space3 c1 c2 c3 then blank s3 else false
              | EmptyString => false
              end
        | EmptyString => false
        end
  end.

(** [s.lstrip()], [s.rstrip()] and [s.strip()] *)
Fixpoint lstrip (s : string) : string :=
  match s with
  | EmptyString => EmptyString
  | String c1 s1 =>
      if is_space c1 then lstrip s1
      else
        match s1 with
        | String c2 s2 =>
            if is_space2 c1 c2 then lstrip s2
            else
              match s2 with
              | String c3 s3 => if is_space3 c1 c2 c3 then lstrip s3 else s
              | EmptyString => s
              end
        | EmptyString => s
        end
  end.

Fixpoint rstrip (s : string) : string :=
  match s with
  | EmptyString => EmptyString
  | String c s' => if blank s then EmptyString else String c (rstrip s')
  end.

Definition strip (s : string) : string := rstrip (lstrip s).

(** [s.replace(old, new)] for one-character [old] and [new]. *)
Fixpoint replace_char (old new : ascii) (s : string) : string :=
  match s with
  | EmptyString => EmptyString
  | String c s' =>
      String (if Ascii.eqb c old then new else c) (replace_char old new s')
  end.

End Py.

(** ** Python floats as extended rationals *)

Inductive pyfloat :=
| Fin (q : Qc)
| Inf (negative : bool)
| NaN.

Definition Qc_ltb (a b : Qc) : bool :=
  match (a ?= b)%Qc with Lt => true | _ => false end.

Definition Qc_eqb (a b : Qc) : bool :=
  match (a ?= b)%Qc with Eq => true | _ => false end.

Definition QcZ (z : Z) : Qc := Q2Qc (inject_Z z).

Coercion QcZ : Z >-> Qc.

Module F.

(** [x - y] *)
Definition sub (x y : pyfloat) : pyfloat :=
  match x, y with
  | NaN, _ | _, NaN => NaN
  | Fin a, Fin b => Fin (a - b)%Qc
  | Inf s, Fin _ => Inf s
  | Fin _, Inf s => Inf (negb s)
  | Inf s, Inf t => if eqb s t then NaN else Inf s
  end.

(** [x * y] *)
Definition mul (x y : pyfloat) : pyfloat :=
  match x, y with
  | NaN, _ | _, NaN => NaN
  | Fin a, Fin b => Fin (a * b)%Qc
  | Inf s, Fin b | Fin b, Inf s =>
      if Qc_eqb b 0%Z then NaN else Inf (xorb s (Qc_ltb b 0%Z))
  | Inf s, Inf t => Inf (xorb s t)
  end.

(** [x / y] on numpy floats: division by zero gives [inf] or [nan], it
    does not raise. *)
Definition div (x y : pyfloat) : pyfloat :=
  match x, y with
  | NaN, _ | _, NaN => NaN
  | Fin a, Fin b =>
      if Qc_eqb b 0%Z then
        if Qc_eqb a 0%Z then NaN else Inf (Qc_ltb a 0%Z)
      else Fin (a / b)%Qc
  | Inf s, Fin b => Inf (xorb s (Qc_ltb b 0%Z))
  | Fin _, Inf _ => Fin 0%Z
  | Inf _, Inf _ => NaN
  end.

(** [x < y]; every comparison with [nan] is false. *)
Definition ltb (x y : pyfloat) : bool :=
  match x, y with
  | NaN, _ | _, NaN => false
  | Fin a, Fin b => Qc_ltb a b
  | Inf s, Fin _ => s
  | Fin _, Inf t => negb t
  | Inf s, Inf t => s && negb t
  end.

(** [x > y] *)
Definition gtb (x y : pyfloat) : bool := ltb y x.

(** [abs(x)] *)
Definition abs (x : pyfloat) : pyfloat :=
  match x with
  | Fin a => Fin (if Qc_ltb a 0%Z then (- a)%Qc else a)
  | Inf _ => Inf false
  | NaN => NaN
  end.

(** Nearest integer, ties to the even one. *)
Definition round_half_even (q : Qc) : Z :=
  let f := Qfloor q in
  let r := (q - QcZ f)%Qc in
  let half := Q2Qc (1 # 2) in
  if Qc_ltb r half then f
  else if Qc_ltb half r then f + 1
  else if Z.even f then f else f + 1.

(** [round(x, ndigits)]: a float again, [inf] and [nan] unchanged. *)
Definition round (x : pyfloat) (ndigits : nat) : pyfloat :=
  match x with
  | Fin q =>
      let scale := 10 ^ Z.of_nat ndigits in
      Fin (QcZ (round_half_even (q * QcZ scale)%Qc) / QcZ scale)%Qc
  | _ => x
  end.

(** [int(q)] for a finite [q]: truncation towards zero. *)
Definition trunc (q : Qc) : Z :=
  if Qc_ltb q 0%Z then Qceiling q else Qfloor q.

End F.

(** ** Number formatting of f-strings *)

Module Fmt.

Fixpoint zeros (n : nat) : string :=
  match n with O => "" | S n' => String "0" (zeros n') end.

(** Left-pad the digits [s] with zeros up to [width]. *)
Definition zero_pad (width : nat) (s : string) : string :=
  zeros (width - String.length s) ++ s.

(** Thousands separators, on the reversed digits; [n] digits of the
    current group are already out. *)
Fixpoint group3 (n : nat) (rev_digits : list ascii) : list ascii :=
  match rev_digits with
  | [] => []
  | c :: l =>
      match n with
      | 3%nat => ","%char :: c :: group3 1 l
      | _ => c :: group3 (S n) l
      end
  end.

Definition with_commas (digits : string) : string :=
  string_of_list_ascii
    (rev (group3 0 (rev (list_ascii_of_string digits)))).

(** [f"{x:.{prec}f}"], and [f"{x:,.{prec}f}"] when [comma] is set. *)
Definition fixed (comma : bool) (prec : nat) (x : pyfloat) : string :=
  match x with
  | NaN => "nan"
  | Inf s => if s then "-inf" else "inf"
  | Fin q =>
      let scale := 10 ^ Z.of_nat prec in
      let a := if Qc_ltb q 0%Z then (- q)%Qc else q in
      let n := F.round_half_even (a * QcZ scale)%Qc in
      let int_part := pretty (Z.to_N (n / scale)) in
      let frac_part := zero_pad prec (pretty (Z.to_N (n mod scale))) in
      (if Qc_ltb q 0%Z then "-" else "") ++
      (if comma then with_commas int_part else int_part) ++
      (match prec with O => "" | _ => "." ++ frac_part end)
  end.

End Fmt.

(** ** Exceptions *)

(** The exceptions that the code raises on the frames of this model:
    whatever [pd.read_excel] raises, with its message; the
    [AttributeError] of the [.str] accessor on column names that are not
    text; the [TypeError] of [Series.mean] on a column that holds text;
    and the [IndexError] of [areas[0]] on an empty list.  A computation
    that can raise has a type [exn + A]. *)
Inductive exn :=
| ReadError (message : string)
| AttributeError
| TypeError
| IndexError.

#[global] Instance exn_eq_dec : EqDecision exn.
Proof. solve_decision. Defined.

(** ** Data frames *)

Inductive cell :=
| NA
| Str (s : string)
| Num (q : Qc).

#[global] Instance cell_eq_dec : EqDecision cell.
Proof. solve_decision. Defined.

Record DataFrame := mkDataFrame {
  columns : list string;
  rows : list (list cell)
}.

#[global] Instance DataFrame_eq_dec : EqDecision DataFrame.
Proof. solve_decision. Defined.

Module Pd.

(** [pd.DataFrame()] *)
Definition DataFrame_ : DataFrame := mkDataFrame [] [].

(** [df.empty]: no column or no row. *)
Definition empty (df : DataFrame) : bool :=
  match columns df, rows df with
  | [], _ | _, [] => true
  | _, _ => false
  end.

(** Position of the first column called [col]. *)
Fixpoint position (col : string) (cols : list string) : nat :=
  match cols with
  | [] => O
  | c :: cols' => if String.eqb c col then O else S (position col cols')
  end.

(** The cell of row [r] in column [col]. *)
Definition at_ (df : DataFrame) (col : string) (r : list cell) : cell :=
  nth (position col (columns df)) r NA.

(** An element of a text column; anything else is missing. *)
Definition as_str (c : cell) : option string :=
  match c with Str s => Some s | _ => None end.

(** An element of a numeric column; anything else is missing. *)
Definition as_num (c : cell) : option Qc :=
  match c with Num q => Some q | _ => None end.

(** [df[col]] read as text, and as numbers. *)
Definition text (df : DataFrame) (col : string) : list (option string) :=
  (fun r => as_str (at_ df col r)) <$> rows df.

Definition numbers (df : DataFrame) (col : string) : list (option Qc) :=
  (fun r => as_num (at_ df col r)) <$> rows df.

Definition sum (l : list Qc) : Qc := fold_right Qcplus (QcZ 0) l.

(** [Series.mean()], [min()] and [max()] skip missing values and give
    [nan] when nothing is left. *)
Definition mean (s : list (option Qc)) : pyfloat :=
  match omap id s with
  | [] => NaN
  | x :: l => Fin (sum (x :: l) / QcZ (Z.of_nat (length (x :: l))))%Qc
  end.

Definition min (s : list (option Qc)) : pyfloat :=
  match omap id s with
  | [] => NaN
  | x :: l => Fin (fold_right (fun a b => if Qc_ltb a b then a else b) x l)
  end.

Definition max (s : list (option Qc)) : pyfloat :=
  match omap id s with
  | [] => NaN
  | x :: l => Fin (fold_right (fun a b => if Qc_ltb b a then a else b) x l)
  end.

(** The cells of [df[col]]. *)
Definition cells (df : DataFrame) (col : string) : list cell :=
  (fun r => at_ df col r) <$> rows df.

Definition is_text (c : cell) : bool :=
  match c with Str _ => true | _ => false end.

(** [df[col].mean()] on a column of any kind: with a text value among its
    cells pandas raises [TypeError]; otherwise it is the mean of the
    numbers. *)
Definition Series_mean (df : DataFrame) (col : string) : exn + pyfloat :=
  if existsb is_text (cells df col) then inl TypeError
  else inr (mean (numbers df col)).

(** The group keys of [df.groupby(by_)]: the distinct values of the key
    column, missing keys dropped, in ascending order. *)
Definition group_keys (df : DataFrame) (by_ : string) : list Qc :=
  merge_sort Qcle (remove_dups (omap id (numbers df by_))).

(** The rows of one group. *)
Definition group (df : DataFrame) (by_ : string) (k : Qc) : DataFrame :=
  mkDataFrame (columns df)
    (filter (fun r => as_num (at_ df by_ r) = Some k) (rows df)).

(** [df.groupby(by_)[col].mean()]: one entry per key, the mean of the
    group's values of [col]. *)
Definition groupby_mean (df : DataFrame) (by_ col : string)
  : list (Qc * pyfloat) :=
  (fun k => (k, mean (numbers (group df by_ k) col))) <$> group_keys df by_.

Definition key_le (a b : Qc * pyfloat) : Prop := (a.1 <= b.1)%Qc.

#[global] Instance key_le_dec : RelDecision key_le.
Proof. intros a b. unfold key_le. apply _. Defined.

(** [trend.sort_values(by_)] and [yearly.sort_index()] *)
Definition sort_values (t : list (Qc * pyfloat)) : list (Qc * pyfloat) :=
  merge_sort key_le t.

End Pd.

(** ** [utils/data_processor.py]: the result dictionaries *)

(** The dictionary of [get_price_trend] and [get_demand_trend]: the keys
    [labels] and [data] are always there, [title] and [type] on success,
    [error] on failure. *)
Module Trend.
Record t := mk {
  labels : list Z;
  data : list pyfloat;
  title : option string;
  type : option string;
  error : option string
}.
End Trend.

(** The dictionary of [compare_areas]; it has no [error] key. *)
Module Comparison.
Record dataset := mkDataset {
  label : string;
  data : list pyfloat
}.
Record t := mk {
  labels : list Z;
  datasets : list dataset;
  title : string
}.
End Comparison.

(** The dictionary of [get_summary_stats]: either the single key [error],
  or [area] and [total_records] and the optional blocks of keys, each
  block set as a whole by the source. *)
Module Stats.
Record price_block := mkPrice {
  avg_price : pyfloat;
  min_price : pyfloat;
  max_price : pyfloat
}.
Record growth_block := mkGrowth {
  price_growth_pct : pyfloat;
  years_analyzed : string
}.
Record demand_block := mkDemand {
  avg_demand : pyfloat;
  min_demand : pyfloat;
  max_demand : pyfloat
}.
Record summary := mk {
  area : string;
  total_records : nat;
  price : option price_block;
  growth : option growth_block;
  demand : option demand_block;
  avg_size : option pyfloat
}.
Inductive t :=
| NoData (error : string)
| Summary (s : summary).
End Stats.

(** ** [RealEstateDataProcessor]

    [df] is [self.df], the frame of [load_data] with its column names
    already normalised. *)

Module RealEstateDataProcessor.

(** What [pd.read_excel(self.file_path)] gives: an exception, with its
    message, or the frame of the sheet.  An empty sheet gives the frame
    without columns. *)
Inductive excel :=
| Unreadable (message : string)
| Sheet (raw : DataFrame).

(** [self.df.columns.str.strip().str.lower().str.replace(' ', '_')] on
    one column name (line 21). *)
Definition clean_column (col : string) : string :=
  Py.replace_char " " "_" (Py.lower (Py.strip col)).

(** [__init__] and [load_data] (lines 10-26): the frame with its column
    names cleaned, or the exception raised again.  On a frame without
    columns the column index holds no text and its [.str] accessor raises
    [AttributeError] (line 21). *)
Definition load_data (file : excel) : exn + DataFrame :=
  match file with
  | Unreadable message => inl (ReadError message)
  | Sheet raw =>
      match columns raw with
      | [] => inl AttributeError
      | _ :: _ =>
          inr (mkDataFrame (clean_column <$> columns raw) (rows raw))
      end
  end.

(** ['area' in col.lower() or 'location' in col.lower()] *)
Definition is_area_column (col : string) : bool :=
  Py.contains "area" (Py.lower col) || Py.contains "location" (Py.lower col).

Definition area_columns (df : DataFrame) : list string :=
  List.filter is_area_column (columns df).

Definition str_le (a b : string) : Prop := String.leb a b = true.

#[global] Instance str_le_dec : RelDecision str_le.
Proof. intros a b. unfold str_le. apply _. Defined.

(** [sorted(...)] on strings *)
Definition sorted_str (l : list string) : list string := merge_sort str_le l.

(** [get_available_areas] (lines 28-33) *)
Definition get_available_areas (df : DataFrame) : list string :=
  match area_columns df with
  | area_col :: _ =>
      sorted_str (remove_dups (omap id (Pd.text df area_col)))
  | [] => []
  end.

(** [self.df[area_col].str.lower() == area.lower()], row by row; a
    missing value compares false. *)
Definition area_matches (df : DataFrame) (area_col area : string)
    (r : list cell) : Prop :=
  Py.lower <$> Pd.as_str (Pd.at_ df area_col r) = Some (Py.lower area).

#[global] Instance area_matches_dec df area_col area r :
  Decision (area_matches df area_col area r).
Proof. unfold area_matches. apply _. Defined.

(** [filter_by_area] (lines 35-44) *)
Definition filter_by_area (df : DataFrame) (area : string) : DataFrame :=
  match area_columns df with
  | [] => Pd.DataFrame_
  | area_col :: _ =>
      mkDataFrame (columns df)
        (filter (area_matches df area_col area) (rows df))
  end.

(** [token in col.lower()] *)
Definition has_token (token : string) (col : string) : bool :=
  Py.contains token (Py.lower col).

(** The per-year means of a filtered frame as the chart lists of lines
    61-63, 84-86 and 115-120: [int(y)] of every year and
    [round(float(v), 2)] of every mean. *)
Definition chart_labels (trend : list (Qc * pyfloat)) : list Z :=
  (fun '(y, _) => F.trunc y) <$> trend.

Definition chart_data (trend : list (Qc * pyfloat)) : list pyfloat :=
  (fun '(_, p) => F.round p 2) <$> trend.

(** [get_price_trend] (lines 46-68) *)
Definition get_price_trend (df : DataFrame) (area : string) : Trend.t :=
  let filtered := filter_by_area df area in
  if Pd.empty filtered then
    Trend.mk [] [] None None (Some ("No data found for " ++ area))
  else
    let year_col := Py.next (has_token "year") (columns filtered) in
    let price_col := Py.next (has_token "price") (columns filtered) in
    match Py.if_both year_col price_col with
    | Some (year_col, price_col) =>
        let trend := Pd.groupby_mean filtered year_col price_col in
        let trend := Pd.sort_values trend in
        Trend.mk (chart_labels trend) (chart_data trend)
          (Some ("Price Trend for " ++ area)) (Some "price") None
    | None =>
        Trend.mk [] [] None None (Some "Price or year data not available")
    end.

(** [get_demand_trend] (lines 70-91) *)
Definition get_demand_trend (df : DataFrame) (area : string) : Trend.t :=
  let filtered := filter_by_area df area in
  if Pd.empty filtered then
    Trend.mk [] [] None None (Some ("No data found for " ++ area))
  else
    let year_col := Py.next (has_token "year") (columns filtered) in
    let demand_col := Py.next (has_token "demand") (columns filtered) in
    match Py.if_both year_col demand_col with
    | Some (year_col, demand_col) =>
        let trend := Pd.groupby_mean filtered year_col demand_col in
        let trend := Pd.sort_values trend in
        Trend.mk (chart_labels trend) (chart_data trend)
          (Some ("Demand Trend for " ++ area)) (Some "demand") None
    | None =>
        Trend.mk [] [] None None (Some "Demand or year data not available")
    end.

(** One turn of the loop of [compare_areas] (lines 109-121) on the
    state [(all_years, result['datasets'])]. *)
Definition compare_step (df : DataFrame) (year_col metric_col : string)
    (st : gset Z * list Comparison.dataset) (area : string)
  : gset Z * list Comparison.dataset :=
  let '(all_years, datasets) := st in
  let filtered := filter_by_area df area in
  if negb (Pd.empty filtered) then
    let trend := Pd.groupby_mean filtered year_col metric_col in
    let trend := Pd.sort_values trend in
    let years := chart_labels trend in
    (all_years ∪ list_to_set years,
     (datasets ++ [Comparison.mkDataset area (chart_data trend)])%list)
  else st.

(** [sorted(list(all_years))] *)
Definition sorted_years (all_years : gset Z) : list Z :=
  merge_sort Z.le (elements all_years).

(** [compare_areas] (lines 93-124) *)
Definition compare_areas (df : DataFrame) (areas : list string)
    (metric : string) : Comparison.t :=
  let title := Py.capitalize metric ++ " Comparison" in
  let year_col := Py.next (has_token "year") (columns df) in
  let metric_col := Py.next (has_token (Py.lower metric)) (columns df) in
  match Py.if_both year_col metric_col with
  | None => Comparison.mk [] [] title
  | Some (year_col, metric_col) =>
      let '(all_years, datasets) :=
        fold_left (compare_step df year_col metric_col) areas (∅, []) in
      Comparison.mk (sorted_years all_years) datasets title
  end.

(** [_get_area_column] (lines 170-173) *)
Definition _get_area_column (df : DataFrame) : string :=
  match area_columns df with
  | c :: _ => c
  | [] => ""
  end.

(** The test of the size column (line 141); [and] binds tighter than
    [or]. *)
Definition is_size_column (df : DataFrame) (col : string) : bool :=
  Py.contains "size" (Py.lower col) ||
  (Py.contains "area" (Py.lower col) &&
   negb (String.eqb col (_get_area_column df))).

(** [((yearly.iloc[-1] - yearly.iloc[0]) / yearly.iloc[0]) * 100] *)
Definition growth (first last : pyfloat) : pyfloat :=
  F.mul (F.div (F.sub last first) first) (Fin 100).

(** The price growth block (lines 152-156): [price_growth_pct] and
    [years_analyzed], when [yearly] has more than one entry. *)
Definition price_growth (yearly : list (Qc * pyfloat))
  : option Stats.growth_block :=
  if (1 <? length yearly)%nat then
    let '(y0, first) := List.hd (QcZ 0, NaN) yearly in
    let '(y1, last) := List.last yearly (QcZ 0, NaN) in
    Some (Stats.mkGrowth (growth first last)
            (pretty (F.trunc y0) ++ "-" ++ pretty (F.trunc y1)))
  else None.

(** The dictionary of [get_summary_stats] as lines 133-162 fill it, with
    the value that line 166 adds under [avg_size], if any. *)
Definition stats_dict (df : DataFrame) (area : string)
    (avg_size : option pyfloat) : Stats.summary :=
  let filtered := filter_by_area df area in
  let price_col := Py.next (has_token "price") (columns filtered) in
  let demand_col := Py.next (has_token "demand") (columns filtered) in
  let year_col := Py.next (has_token "year") (columns filtered) in
  {| Stats.area := area;
     Stats.total_records := length (rows filtered);
     Stats.price :=
       Py.if_ price_col (fun price_col =>
         let s := Pd.numbers filtered price_col in
         Stats.mkPrice (Pd.mean s) (Pd.min s) (Pd.max s));
     Stats.growth :=
       match Py.if_both price_col year_col with
       | Some (price_col, year_col) =>
           price_growth
             (Pd.sort_values (Pd.groupby_mean filtered year_col price_col))
       | None => None
       end;
     Stats.demand :=
       Py.if_ demand_col (fun demand_col =>
         let s := Pd.numbers filtered demand_col in
         Stats.mkDemand (Pd.mean s) (Pd.min s) (Pd.max s));
     Stats.avg_size := avg_size |}.

(** [get_summary_stats] (lines 126-168).  The size column is whatever
    column line 141 finds, the text column of the areas included, so the
    mean of line 166 is the one that can raise. *)
Definition get_summary_stats (df : DataFrame) (area : string)
  : exn + Stats.t :=
  let filtered := filter_by_area df area in
  if Pd.empty filtered then
    inr (Stats.NoData ("No data found for " ++ area))
  else
    let size_col := Py.next (is_size_column df) (columns filtered) in
    match Py.if_ size_col id with
    | Some size_col =>
        match Pd.Series_mean filtered size_col with
        | inl e => inl e
        | inr avg_size =>
            inr (Stats.Summary (stats_dict df area (Some avg_size)))
        end
    | None => inr (Stats.Summary (stats_dict df area None))
    end.

(** One row as the dictionary of [to_dict('records')]: the value of every
    column, in column order. *)
Definition to_record (df : DataFrame) (r : list cell)
  : list (string * cell) :=
  (fun col => (col, Pd.at_ df col r)) <$> columns df.

(** [get_filtered_table_data] (lines 175-186), for a [limit] that is not
    negative. *)
Definition get_filtered_table_data (df : DataFrame) (area : string)
    (limit : nat) : list (list (string * cell)) :=
  let filtered := filter_by_area df area in
  if Pd.empty filtered then []
  else
    let filtered := mkDataFrame (columns filtered)
                      (firstn limit (rows filtered)) in
    to_record filtered <$> rows filtered.

(** *** [generate_summary] (lines 188-246) *)

Definition nl : string := String "010"%char "".

(** The error narrative (line 191). *)
Definition no_data_summary (df : DataFrame) (area : string) : string :=
  "❌ I couldn't find any data for **" ++ area ++
  "**. Please check the spelling or try another area." ++ nl ++ nl ++
  "Available areas: " ++
  Py.join ", " (firstn 5 (get_available_areas df)) ++ "...".

(** Lines 209-210. *)
Definition trend_emoji (growth : pyfloat) : string :=
  if F.gtb growth (Fin 0) then "📈"
  else if F.ltb growth (Fin 0) then "📉" else "➡️".

Definition trend_word (growth : pyfloat) : string :=
  if F.gtb growth (Fin 0) then "increased"
  else if F.ltb growth (Fin 0) then "decreased" else "remained stable".

(** Lines 219-220. *)
Definition demand_level (avg_demand : pyfloat) : string :=
  if F.gtb avg_demand (Fin 70) then "High"
  else if F.gtb avg_demand (Fin 40) then "Moderate" else "Low".

Definition demand_emoji (avg_demand : pyfloat) : string :=
  if F.gtb avg_demand (Fin 70) then "🔥"
  else if F.gtb avg_demand (Fin 40) then "⚡" else "💤".

(** The price section (lines 202-214). *)
Definition price_section (s : Stats.summary) : string :=
  match Stats.price s with
  | Some p =>
      "## 💰 Price Analysis" ++ nl ++
      "• **Average Price:** ₹" ++
        Fmt.fixed true 0 (Stats.avg_price p) ++ nl ++
      "• **Price Range:** ₹" ++ Fmt.fixed true 0 (Stats.min_price p) ++
        " - ₹" ++ Fmt.fixed true 0 (Stats.max_price p) ++ nl ++
      match Stats.growth s with
      | Some g =>
          let growth := Stats.price_growth_pct g in
          "• **Growth Trend:** " ++ trend_emoji growth ++
          " Prices have " ++ trend_word growth ++ " by **" ++
          Fmt.fixed false 2 (F.abs growth) ++ "%**" ++ nl
      | None => ""
      end ++ nl
  | None => ""
  end.

(** The demand section (lines 217-223). *)
Definition demand_section (s : Stats.summary) : string :=
  match Stats.demand s with
  | Some d =>
      "## 📈 Demand Analysis" ++ nl ++
      "• **Demand Level:** " ++ demand_emoji (Stats.avg_demand d) ++
        " " ++ demand_level (Stats.avg_demand d) ++ " (Index: " ++
        Fmt.fixed false 2 (Stats.avg_demand d) ++ ")" ++ nl ++
      "• **Demand Range:** " ++ Fmt.fixed false 2 (Stats.min_demand d) ++
        " - " ++ Fmt.fixed false 2 (Stats.max_demand d) ++ nl ++ nl
  | None => ""
  end.

(** The size line (lines 226-227). *)
Definition size_section (s : Stats.summary) : string :=
  match Stats.avg_size s with
  | Some z =>
      "**Average Property Size:** " ++ Fmt.fixed false 0 z ++ " sq ft" ++
      nl ++ nl
  | None => ""
  end.

(** The growth sentence of the insights (lines 232-238). *)
Definition growth_insight (area : string) (price_growth_pct : pyfloat)
  : string :=
  if F.gtb price_growth_pct (Fin 5) then
    "✅ **" ++ area ++ "** shows strong growth potential with " ++
    Fmt.fixed false 1 price_growth_pct ++ "% price appreciation." ++ nl
  else if F.gtb price_growth_pct (Fin 0) then
    "✅ **" ++ area ++ "** shows steady growth with " ++
    Fmt.fixed false 1 price_growth_pct ++ "% price increase." ++ nl
  else
    "⚠️ **" ++ area ++ "** has experienced a price decline of " ++
    Fmt.fixed false 1 (F.abs price_growth_pct) ++ "%." ++ nl.

(** The demand sentence of the insights (lines 240-244). *)
Definition demand_insight (avg_demand : pyfloat) : string :=
  if F.gtb avg_demand (Fin 70) then
    "🔥 High demand indicates strong market activity and investment interest."
    ++ nl
  else if F.gtb avg_demand (Fin 40) then
    "⚡ Moderate demand suggests stable market conditions." ++ nl
  else "".

(** The insights section (lines 230-244). *)
Definition insights_section (area : string) (s : Stats.summary) : string :=
  "## 💡 Key Insights" ++ nl ++
  match Stats.growth s with
  | Some g => growth_insight area (Stats.price_growth_pct g)
  | None => ""
  end ++
  match Stats.demand s with
  | Some d => demand_insight (Stats.avg_demand d)
  | None => ""
  end.

(** [generate_summary]; [chart_data] is not read by the source. *)
Definition generate_summary (df : DataFrame) (area : string)
    (stats : Stats.t) (chart_data : option Trend.t) : string :=
  match stats with
  | Stats.NoData _ => no_data_summary df area
  | Stats.Summary s =>
      "# 📊 Real Estate Analysis for " ++ area ++ nl ++ nl ++
      "**Analysis based on " ++ pretty (Stats.total_records s) ++
      " records**" ++
      match Stats.growth s with
      | Some g => " (" ++ Stats.years_analyzed g ++ ")"
      | None => ""
      end ++
      nl ++ nl ++
      price_section s ++
      demand_section s ++
      size_section s ++
      insights_section area s
  end.

End RealEstateDataProcessor.

(** ** The growth expression on binary64 floats

    Line 154 as numpy evaluates it, with the rounding of every operation. *)

Module Binary64.

Import PrimFloat.

Definition growth (first last : float) : float :=
  ((last - first) / first * 100)%float.

(** [(a + b + c) / 3], the mean of a series of three values. *)
Definition mean3 (a b c : float) : float := ((a + b + c) / 3)%float.

Definition lt (a b : float) : bool := (a <? b)%float.

(** The float 0.1 and the next float above it. *)
Definition one_tenth : float := 0x1.999999999999ap-4%float.
Definition above_one_tenth : float := 0x1.999999999999bp-4%float.

(** The floats nearest to 0.001 and to 1e304, and [inf]. *)
Definition one_thousandth : float := 0x1.0624dd2f1a9fcp-10%float.
Definition ten_to_304 : float := 0x1.d2a1be4048f9p+1009%float.
Definition infinity : float := PrimFloat.infinity.

(** The floats 10.0, 100.0 and 110.0. *)
Definition of_nat_10 : float := 10%float.
Definition of_nat_100 : float := 100%float.
Definition of_nat_110 : float := 110%float.

End Binary64.

(** ** [chatbot/views.py]: [ChatQueryView._parse_query] *)

Module ChatQueryView.

Import RealEstateDataProcessor.

Definition compare_keywords : list string :=
  ["compare"; "comparison"; "versus"; "vs"; "vs."; "compare to"].
Definition demand_keywords : list string :=
  ["demand"; "demands"; "popularity"].
Definition price_keywords : list string :=
  ["price"; "cost"; "growth"; "appreciation"; "value"].

(** The intent chain (lines 76-88) on the lower-cased query. *)
Definition intent_of (query_lower : string) : string :=
  if Py.any_in compare_keywords query_lower then "compare"
  else if Py.any_in demand_keywords query_lower then "demand"
  else if Py.any_in price_keywords query_lower then "price"
  else "analysis".

(** [_parse_query] (lines 63-90) *)
Definition _parse_query (query : string) (df : DataFrame)
  : string * list string :=
  let query_lower := Py.lower query in
  let available_areas := get_available_areas df in
  let mentioned_areas :=
    List.filter (fun area => Py.contains (Py.lower area) query_lower)
      available_areas in
  (intent_of query_lower, mentioned_areas).

(** The HTTP statuses the view answers with. *)
Inductive status :=
| HTTP_200_OK
| HTTP_400_BAD_REQUEST
| HTTP_500_INTERNAL_SERVER_ERROR.

(** The value under the key [chart]: [None], a trend dictionary or a
    comparison dictionary. *)
Inductive chart :=
| ChartNone
| ChartTrend (t : Trend.t)
| ChartComparison (c : Comparison.t).

(** The dictionaries the handlers build.  [stats] is [None] when the key
    is not there; [comparison] is [true] when the key is there (its value
    is always [True]). *)
Record result := mkResult {
  summary : string;
  chart_ : chart;
  table : list (list (string * cell));
  stats : option Stats.t;
  comparison : bool
}.

(** The body of a response: the dictionary with the key [error] of line
    26; the one of line 59, whose text is "Error processing query: "
    followed by the message of the exception; or a result with the key
    [query] added. *)
Inductive body :=
| Error (error : string)
| ProcessingError (e : exn)
| Answer (r : result) (query : string).

Record Response := mkResponse {
  data : body;
  status_ : status
}.

(** [_handle_single_area_analysis] (lines 92-122) *)
Definition _handle_single_area_analysis (area intent : string)
    (df : DataFrame) : exn + result :=
  match get_summary_stats df area with
  | inl e => inl e
  | inr stats =>
      match stats with
      | Stats.NoData _ =>
          inr (mkResult (generate_summary df area stats None) ChartNone []
                 (Some stats) false)
      | Stats.Summary _ =>
          let chart_data :=
            if String.eqb intent "demand" then get_demand_trend df area
            else get_price_trend df area in
          let summary := generate_summary df area stats (Some chart_data) in
          let table_data := get_filtered_table_data df area 20 in
          inr (mkResult summary (ChartTrend chart_data) table_data
                 (Some stats) false)
      end
  end.

(** The lines that the loop adds for an area whose statistics have no
    [error] key (lines 143-155). *)
Definition comparison_section (metric area : string) (s : Stats.summary)
  : string :=
  "## 📍 " ++ area ++ nl ++
  match Stats.price s with
  | Some p =>
      if String.eqb metric "price" then
        "• Average Price: ₹" ++ Fmt.fixed true 0 (Stats.avg_price p) ++ nl ++
        match Stats.growth s with
        | Some g =>
            let growth := Stats.price_growth_pct g in
            let growth_emoji :=
              if F.gtb growth (Fin 0) then "📈" else "📉" in
            "• Growth: " ++ growth_emoji ++ " " ++
            Fmt.fixed false 2 growth ++ "%" ++ nl
        | None => ""
        end
      else ""
  | None => ""
  end ++
  match Stats.demand s with
  | Some d =>
      if String.eqb metric "demand" then
        let demand_emoji :=
          if F.gtb (Stats.avg_demand d) (Fin 70) then "🔥" else "⚡" in
        "• Demand Index: " ++ demand_emoji ++ " " ++
        Fmt.fixed false 2 (Stats.avg_demand d) ++ nl
      else ""
  | None => ""
  end ++
  nl.

(** One turn of the loop (lines 141-155): the lines that the area adds to
    the summary, or the exception of [get_summary_stats]. *)
Definition comparison_lines (df : DataFrame) (metric area : string)
  : exn + string :=
  match get_summary_stats df area with
  | inl e => inl e
  | inr (Stats.NoData _) => inr ""
  | inr (Stats.Summary s) => inr (comparison_section metric area s)
  end.

(** The loop of lines 140-155: it stops at the first area whose
    statistics raise. *)
Fixpoint comparison_loop (df : DataFrame) (metric : string)
    (areas : list string) (summary : string) : exn + string :=
  match areas with
  | [] => inr summary
  | area :: areas' =>
      match comparison_lines df metric area with
      | inl e => inl e
      | inr lines => comparison_loop df metric areas' (summary ++ lines)
      end
  end.

(** [_handle_comparison] (lines 124-165); [areas[0]] raises [IndexError]
    on an empty list. *)
Definition _handle_comparison (areas : list string) (query : string)
    (df : DataFrame) : exn + result :=
  let query_lower := Py.lower query in
  let metric := if Py.contains "demand" query_lower then "demand" else "price" in
  let chart_data := compare_areas df areas metric in
  let summary :=
    "# 📊 Comparison: " ++ Py.join " vs " areas ++ nl ++ nl ++
    "**Comparing " ++ metric ++ " trends across " ++
    pretty (length areas) ++ " areas:**" ++ nl ++ nl in
  match comparison_loop df metric areas summary with
  | inl e => inl e
  | inr summary =>
      match areas with
      | [] => inl IndexError
      | area0 :: _ =>
          let table_data := get_filtered_table_data df area0 10 in
          inr (mkResult summary (ChartComparison chart_data) table_data None
                 true)
      end
  end.

(** The answer when no area is found in the query (lines 37-45). *)
Definition clarification (df : DataFrame) : result :=
  let available_areas := get_available_areas df in
  let suggestion :=
    if (0 <? length available_areas)%nat
    then Py.join ", " (firstn 5 available_areas)
    else "No areas found" in
  mkResult
    ("❓ I couldn't identify any area in your query." ++ nl ++ nl ++
     "**Available areas:** " ++ suggestion ++ "..." ++ nl ++ nl ++
     "Please try asking about a specific area like 'Analyze Wakad' or " ++
     "'Show me price trends for Aundh'.")
    ChartNone [] None false.

(** [post] (lines 20-61).  [file] is the sheet at
    [settings.DATA_FILE_PATH], [query_field] the value of the key [query]
    of the request, if there is one.  An exception inside the [try] gives
    the status 500 with its message. *)
Definition post (file : excel) (query_field : option string) : Response :=
  let query := Py.strip (default "" query_field) in
  if String.eqb query "" then
    mkResponse (Error "Query is required") HTTP_400_BAD_REQUEST
  else
    let try_ :=
      match load_data file with
      | inl e => inl e
      | inr df =>
          let '(intent, areas) := _parse_query query df in
          match areas with
          | [] => inr (clarification df)
          | area0 :: _ =>
              if String.eqb intent "compare" && (1 <? length areas)%nat
              then _handle_comparison areas query df
              else _handle_single_area_analysis area0 intent df
          end
      end in
    match try_ with
    | inr result => mkResponse (Answer result query) HTTP_200_OK
    | inl e => mkResponse (ProcessingError e) HTTP_500_INTERNAL_SERVER_ERROR
    end.

End ChatQueryView.

Import RealEstateDataProcessor.

(** ** Sample tables *)

Module Sample.

(** One area whose mean price is the same in both years. *)
Definition flat_prices : DataFrame :=
  mkDataFrame ["location"; "year"; "price"]
    [ [Str "Wakad"; Num 2020; Num 100];
      [Str "Wakad"; Num 2021; Num 100] ].

(** Two areas with disjoint years, and an area name in another case. *)
Definition two_areas : DataFrame :=
  mkDataFrame ["location"; "year"; "price"; "demand_index"]
    [ [Str "Wakad"; Num 2020; Num 100; Num 70];
      [Str "Aundh"; Num 2018; Num 80; Num 40];
      [Str "wakad"; Num 2021; Num 110; Num 71];
      [Str "Aundh"; Num 2019; Num 90; NA];
      [Str "Wakad"; Num 2021; Num 115; Num 72] ].

(** The 2-year trend (2020, 100), (2021, 110) of one area. *)
Definition growth_10 : DataFrame :=
  mkDataFrame ["location"; "year"; "price"]
    [ [Str "Wakad"; Num 2020; Num 100];
      [Str "Wakad"; Num 2021; Num 110] ].

(** The only area column also carries the token "size". *)
Definition area_size : DataFrame :=
  mkDataFrame ["area_size"; "year"; "price"]
    [ [Str "Wakad"; Num 2020; Num 100] ].

(** An area column and a size column found by the token "area". *)
Definition carpet_area : DataFrame :=
  mkDataFrame ["area"; "year"; "price"; "carpet_area"]
    [ [Str "Wakad"; Num 2020; Num 100; Num 650] ].

(** No column for the area role. *)
Definition no_area_column : DataFrame :=
  mkDataFrame ["city"; "year"; "price"]
    [ [Str "Pune"; Num 2020; Num 100] ].

(** Seven areas. *)
Definition seven_areas : DataFrame :=
  mkDataFrame ["location"; "year"; "price"]
    [ [Str "Wakad"; Num 2020; Num 100];
      [Str "Aundh"; Num 2020; Num 100];
      [Str "Baner"; Num 2020; Num 100];
      [Str "Kothrud"; Num 2020; Num 100];
      [Str "Hinjewadi"; Num 2020; Num 100];
      [Str "Pashan"; Num 2020; Num 100];
      [Str "Viman Nagar"; Num 2020; Num 100] ].

End Sample.

(** ** What the lists of a chart hold *)

(** The per-year mean of [col] for the year [k] of the frame [f], rounded
    as the charts have it. *)
Definition rounded_mean (f : DataFrame) (year_col col : string) (k : Qc)
  : pyfloat :=
  F.round (Pd.mean (Pd.numbers (Pd.group f year_col k) col)) 2.

(** [f] has at least one row (and one column). *)
Definition has_rows (f : DataFrame) : Prop := Pd.empty f = false.

#[global] Instance has_rows_dec f : Decision (has_rows f).
Proof. unfold has_rows. apply _. Defined.

(** A finite value with at most two decimals. *)
Definition two_decimals (v : pyfloat) : Prop :=
  match v with
  | Fin q => exists z : Z, q = (QcZ z / QcZ 100)%Qc
  | _ => True
  end.

(** The years that one compared area adds to [all_years], and the
    dataset it appends. *)
Definition area_years (df : DataFrame) (year_col area : string) : gset Z :=
  list_to_set (F.trunc <$> Pd.group_keys (filter_by_area df area) year_col).

Definition area_dataset (df : DataFrame) (year_col metric_col area : string)
  : Comparison.dataset :=
  let f := filter_by_area df area in
  Comparison.mkDataset area
    (rounded_mean f year_col metric_col <$> Pd.group_keys f year_col).

(** The areas of a comparison that have rows, in the order given. *)
Definition areas_with_rows (df : DataFrame) (areas : list string)
  : list string :=
  filter (fun area => has_rows (filter_by_area df area)) areas.




(** The size column that line 141 finds holds text in a row of the area:
    the mean of line 166 raises. *)
Definition size_text (df : DataFrame) (area : string) : bool :=
  let filtered := filter_by_area df area in
  match Py.if_ (Py.next (is_size_column df) (columns filtered)) id with
  | Some size_col => existsb Pd.is_text (Pd.cells filtered size_col)
  | None => false
  end.

(** [v] is the mean [m] rounded to two decimals: the value of
    [round(m, 2)], which for a finite [m] is a multiple of 1/100 at most
    1/200 away from [m], and [m] itself otherwise. *)
Definition rounded_from (m v : pyfloat) : Prop :=
  v = F.round m 2 /\
  match m with
  | Fin q =>
      exists z : Z,
        v = Fin (QcZ z / QcZ 100)%Qc /\
        (QcZ z / QcZ 100 - q <= Q2Qc (1 # 200))%Qc /\
        (q - QcZ z / QcZ 100 <= Q2Qc (1 # 200))%Qc
  | _ => v = m
  end.

(** The trend dictionary [t] for the metric column found by [token]:
    either the error dictionary with empty lists, or integer year labels
    and rounded per-year means of the filtered frame [f]. *)
Definition is_rounded_trend (f : DataFrame) (token : string) (t : Trend.t)
  : Prop :=
  match Trend.error t with
  | Some _ => Trend.labels t = [] /\ Trend.data t = []
  | None =>
      exists yc col,
        Py.next (has_token "year") (columns f) = Some yc /\
        Py.next (has_token token) (columns f) = Some col /\
        Trend.labels t = F.trunc <$> Pd.group_keys f yc /\
        Trend.data t = rounded_mean f yc col <$> Pd.group_keys f yc
  end.

(** The value of row [r] in the area column [c] equals [a] up to case. *)
Definition area_equals_ci (df : DataFrame) (c a : string) (r : list cell)
  : Prop :=
  exists v, Pd.at_ df c r = Str v /\ Py.lower v = Py.lower a.

#[global] Instance area_equals_ci_dec df c a r :
  Decision (area_equals_ci df c a r).
Proof.
  unfold area_equals_ci. destruct (Pd.at_ df c r) as [|v|q].
  - right. by intros (v & ? & _).
  - destruct (decide (Py.lower v = Py.lower a)) as [E|E].
    + left. by exists v.
    + right. intros (v' & [= <-] & ?). by apply E.
  - right. by intros (v & ? & _).
Defined.

(** * Properties *)

(** ** Comparisons of rationals *)

Lemma Qc_ltb_lt (a b : Qc) : Qc_ltb a b = true <-> (a < b)%Qc.
Proof.
  unfold Qc_ltb. rewrite Qclt_alt.
  destruct (a ?= b)%Qc; split; congruence.
Qed.

Lemma Qc_ltb_ge (a b : Qc) : Qc_ltb a b = false <-> (b <= a)%Qc.
Proof.
  rewrite <- not_true_iff_false, Qc_ltb_lt. split.
  - apply Qcnot_lt_le.
  - apply Qcle_not_lt.
Qed.

Lemma Qc_eqb_eq (a b : Qc) : Qc_eqb a b = true <-> a = b.
Proof.
  unfold Qc_eqb. rewrite Qceq_alt.
  destruct (a ?= b)%Qc; split; congruence.
Qed.

Lemma gtb_Fin (a b : Qc) : F.gtb (Fin a) (Fin b) = true <-> (b < a)%Qc.
Proof. apply Qc_ltb_lt. Qed.

Lemma gtb_Fin_false (a b : Qc) : F.gtb (Fin a) (Fin b) = false <-> (a <= b)%Qc.
Proof. apply Qc_ltb_ge. Qed.

(** ** The demand tiers of the narrative *)

(** The demand section prints the level computed by [demand_level] from
    the average demand index. *)
Lemma demand_section_level (s : Stats.summary) (d : Stats.demand_block) :
  Stats.demand s = Some d ->
  demand_section s =
    "## 📈 Demand Analysis" ++ nl ++
    "• **Demand Level:** " ++ demand_emoji (Stats.avg_demand d) ++
    " " ++ demand_level (Stats.avg_demand d) ++ " (Index: " ++
    Fmt.fixed false 2 (Stats.avg_demand d) ++ ")" ++ nl ++
    "• **Demand Range:** " ++ Fmt.fixed false 2 (Stats.min_demand d) ++
    " - " ++ Fmt.fixed false 2 (Stats.max_demand d) ++ nl ++ nl.
Proof. intros H. unfold demand_section. by rewrite H. Qed.

Ltac tier_cases :=
  repeat match goal with
  | |- context [F.gtb (Fin ?a) (Fin ?b)] =>
      let E := fresh "E" in
      destruct (F.gtb (Fin a) (Fin b)) eqn:E;
      [apply gtb_Fin in E | apply gtb_Fin_false in E]
  end.

Ltac Qc_order :=
  match goal with
  | H : (?a < ?b)%Qc, H' : (?b <= ?a)%Qc |- _ =>
      exfalso; exact (Qclt_not_le _ _ H H')
  | H : (?a < ?b)%Qc, H' : (?b < ?c)%Qc, H'' : (?c <= ?a)%Qc |- _ =>
      exfalso; exact (Qclt_not_le _ _ (Qclt_trans _ _ _ H H') H'')
  end.

(** C1, the claim as stated fails: an average demand index of exactly 70
    is printed as "Moderate", and one of exactly 40 as "Low". *)
Lemma demand_level_at_70_and_40 :
  demand_level (Fin 70) = "Moderate" /\ demand_level (Fin 70) <> "High" /\
  demand_level (Fin 40) = "Low" /\ demand_level (Fin 40) <> "Moderate" /\
  demand_section
    (Stats.mk "Wakad" 1 None None
       (Some (Stats.mkDemand (Fin 70) (Fin 70) (Fin 70))) None) =
    "## 📈 Demand Analysis" ++ nl ++
    "• **Demand Level:** ⚡ Moderate (Index: 70.00)" ++ nl ++
    "• **Demand Range:** 70.00 - 70.00" ++ nl ++ nl.
Proof. repeat split; try discriminate; by vm_compute. Qed.

(** C1, amended: 70 and 40 are exclusive lower bounds.  For every finite
    demand index [d] the level printed in the demand section is "High"
    exactly when [d > 70], "Moderate" exactly when [40 < d <= 70] and "Low"
    exactly when [d <= 40]. *)
Theorem demand_level_strict_bounds (d : Qc) :
  (demand_level (Fin d) = "High" <-> (70 < d)%Qc) /\
  (demand_level (Fin d) = "Moderate" <-> (40 < d)%Qc /\ (d <= 70)%Qc) /\
  (demand_level (Fin d) = "Low" <-> (d <= 40)%Qc) /\
  (forall (s : Stats.summary) (blk : Stats.demand_block),
     Stats.demand s = Some blk -> Stats.avg_demand blk = Fin d ->
     demand_section s =
       "## 📈 Demand Analysis" ++ nl ++
       "• **Demand Level:** " ++ demand_emoji (Fin d) ++
       " " ++ demand_level (Fin d) ++ " (Index: " ++
       Fmt.fixed false 2 (Fin d) ++ ")" ++ nl ++
       "• **Demand Range:** " ++ Fmt.fixed false 2 (Stats.min_demand blk) ++
       " - " ++ Fmt.fixed false 2 (Stats.max_demand blk) ++ nl ++ nl).
Proof.
  assert (H4070 : (40 < 70)%Qc) by reflexivity.
  split_and!; try (intros s blk Hs <-; by apply demand_section_level);
    unfold demand_level; tier_cases;
    (repeat split; intros; destruct_and?; try done; try Qc_order).
Qed.

(** The special values: [inf] is "High", [-inf] and [nan] are "Low". *)
Lemma demand_level_special :
  demand_level (Inf false) = "High" /\ demand_level (Inf true) = "Low" /\
  demand_level NaN = "Low".
Proof. by vm_compute. Qed.

(** ** The growth sentence of the insights *)

(** Away from zero the insights follow the three tiers: strong above 5,
    steady in (0, 5], decline below 0. *)
Lemma growth_insight_tiers (area : string) (g : Qc) :
  ((5 < g)%Qc ->
   growth_insight area (Fin g) =
     "✅ **" ++ area ++ "** shows strong growth potential with " ++
     Fmt.fixed false 1 (Fin g) ++ "% price appreciation." ++ nl) /\
  ((0 < g)%Qc -> (g <= 5)%Qc ->
   growth_insight area (Fin g) =
     "✅ **" ++ area ++ "** shows steady growth with " ++
     Fmt.fixed false 1 (Fin g) ++ "% price increase." ++ nl) /\
  ((g <= 0)%Qc ->
   growth_insight area (Fin g) =
     "⚠️ **" ++ area ++ "** has experienced a price decline of " ++
     Fmt.fixed false 1 (F.abs (Fin g)) ++ "%." ++ nl).
Proof.
  assert (H05 : (0 < 5)%Qc) by reflexivity.
  unfold growth_insight. tier_cases;
    (repeat split; intros; try done; try Qc_order).
Qed.

(** C2, the failing input: a price growth of exactly 0.  The insights call
    it a price decline of 0.0%, although the price section of the same
    narrative (lines 209-212) says that prices remained stable. *)
Theorem growth_insight_at_zero :
  growth_insight "Wakad" (Fin 0) =
    "⚠️ **Wakad** has experienced a price decline of 0.0%." ++ nl /\
  trend_word (Fin 0) = "remained stable" /\
  exists stats,
    get_summary_stats Sample.flat_prices "Wakad" = inr stats /\
    generate_summary Sample.flat_prices "Wakad" stats None =
    "# 📊 Real Estate Analysis for Wakad" ++ nl ++ nl ++
    "**Analysis based on 2 records** (2020-2021)" ++ nl ++ nl ++
    "## 💰 Price Analysis" ++ nl ++
    "• **Average Price:** ₹100" ++ nl ++
    "• **Price Range:** ₹100 - ₹100" ++ nl ++
    "• **Growth Trend:** ➡️ Prices have remained stable by **0.00%**" ++ nl ++
    nl ++
    "## 💡 Key Insights" ++ nl ++
    "⚠️ **Wakad** has experienced a price decline of 0.0%." ++ nl.
Proof.
  split; [by vm_compute|]. split; [by vm_compute|].
  eexists. split; [reflexivity|]. by vm_compute.
Qed.

(** ** Substrings and the intent chain *)

(** [word] occurs in [s] as a substring. *)
Definition occurs (word s : string) : Prop :=
  exists pre post, s = pre ++ word ++ post.

(** Some word of [words] occurs in [s]. *)
Definition any_occurs (words : list string) (s : string) : Prop :=
  exists word, In word words /\ occurs word s.

Lemma app_empty (s : string) : "" ++ s = s.
Proof. reflexivity. Qed.

Lemma app_String (c : ascii) (a s : string) :
  String c a ++ s = String c (a ++ s).
Proof. reflexivity. Qed.

Lemma prefix_spec (a s : string) :
  String.prefix a s = true <-> exists post, s = a ++ post.
Proof.
  revert a. induction s as [|c' s IH]; intros [|c a].
  - split; [by exists "" | done].
  - split; [done | intros [post H]; by rewrite app_String in H].
  - split; [by exists (String c' s) | done].
  - change (String.prefix (String c a) (String c' s)) with
      (if Ascii.ascii_dec c c' then String.prefix a s else false).
    destruct (Ascii.ascii_dec c c') as [->|Hne].
    + rewrite IH. split; intros [post H]; exists post;
        rewrite app_String in *; congruence.
    + split; [done | intros [post H]; rewrite app_String in H; congruence].
Qed.

Lemma contains_occurs (word s : string) :
  Py.contains word s = true <-> occurs word s.
Proof.
  unfold occurs. induction s as [|c s IH].
  - change (Py.contains word "") with (String.prefix word "" || false).
    rewrite orb_false_r, prefix_spec. split.
    + intros [post H]. by exists "", post.
    + intros ([|? pre] & post & H); [by exists post | done].
  - change (Py.contains word (String c s)) with
      (String.prefix word (String c s) || Py.contains word s).
    rewrite orb_true_iff, prefix_spec, IH. split.
    + intros [[post H] | (pre & post & H)].
      * by exists "", post.
      * exists (String c pre), post. rewrite app_String. by rewrite H.
    + intros ([|c' pre] & post & H).
      * left. by exists post.
      * right. exists pre, post. rewrite app_String in H. congruence.
Qed.

Lemma any_in_occurs (words : list string) (s : string) :
  Py.any_in words s = true <-> any_occurs words s.
Proof.
  unfold Py.any_in, any_occurs. rewrite existsb_exists.
  split; intros (w & Hw & H); exists w; split; try done;
    by apply contains_occurs.
Qed.

(** C4: the intent of [_parse_query] is decided on the lower-cased query
    by the three keyword sets in strict precedence, compare before demand
    before price, and is "analysis" when no keyword occurs. *)
Theorem intent_precedence (query : string) (df : DataFrame) :
  let q := Py.lower query in
  let intent := (ChatQueryView._parse_query query df).1 in
  let c :=
    any_occurs
      ["compare"; "comparison"; "versus"; "vs"; "vs."; "compare to"] q in
  let d := any_occurs ["demand"; "demands"; "popularity"] q in
  let p :=
    any_occurs ["price"; "cost"; "growth"; "appreciation"; "value"] q in
  (intent = "compare" <-> c) /\
  (intent = "demand" <-> ~ c /\ d) /\
  (intent = "price" <-> ~ c /\ ~ d /\ p) /\
  (intent = "analysis" <-> ~ c /\ ~ d /\ ~ p).
Proof.
  cbv zeta. simpl. unfold ChatQueryView.intent_of.
  rewrite <- !any_in_occurs.
  change ChatQueryView.compare_keywords with
    ["compare"; "comparison"; "versus"; "vs"; "vs."; "compare to"].
  change ChatQueryView.demand_keywords with
    ["demand"; "demands"; "popularity"].
  change ChatQueryView.price_keywords with
    ["price"; "cost"; "growth"; "appreciation"; "value"].
  destruct (Py.any_in [_; _; _; _; _; _] _);
    destruct (Py.any_in [_; _; _] _);
    destruct (Py.any_in [_; _; _; _; _] _);
    repeat split; intros; destruct_and?; try done.
Qed.

(** Two queries: the compare tier wins over the demand keyword, and the
    upper-case query is classified like the lower-case one. *)
Example intent_compare_wins :
  (ChatQueryView._parse_query "Compare DEMAND in Wakad vs Aundh"
     Sample.flat_prices).1 = "compare" /\
  (ChatQueryView._parse_query "Popularity and price of Wakad"
     Sample.flat_prices) = ("demand", ["Wakad"]) /\
  (ChatQueryView._parse_query "what is it worth"
     Sample.flat_prices).1 = "analysis".
Proof. repeat split; by vm_compute. Qed.

(** ** Grouping by year *)

(** [k] is a year of some row of [df]. *)
Definition has_year (df : DataFrame) (year_col : string) (k : Qc) : Prop :=
  exists r, r ∈ rows df /\ Pd.as_num (Pd.at_ df year_col r) = Some k.

Lemma group_keys_spec (df : DataFrame) (by_ : string) (k : Qc) :
  k ∈ Pd.group_keys df by_ <-> has_year df by_ k.
Proof.
  unfold Pd.group_keys, has_year, Pd.numbers.
  rewrite merge_sort_Permutation, elem_of_remove_dups, list_elem_of_omap.
  split.
  - intros (o & Ho & Hk). simpl in Hk. subst o.
    apply list_elem_of_fmap in Ho as (r & Hr & Hin). by exists r.
  - intros (r & Hin & Hr). exists (Some k). split; [|done].
    apply list_elem_of_fmap. by exists r.
Qed.

Lemma group_keys_NoDup (df : DataFrame) (by_ : string) :
  NoDup (Pd.group_keys df by_).
Proof.
  unfold Pd.group_keys. rewrite merge_sort_Permutation.
  apply NoDup_remove_dups.
Qed.

Lemma group_keys_Sorted (df : DataFrame) (by_ : string) :
  Sorted Qcle (Pd.group_keys df by_).
Proof. apply (Sorted_merge_sort Qcle). Qed.

Lemma Sorted_le_NoDup_lt (l : list Qc) :
  Sorted Qcle l -> NoDup l -> StronglySorted Qclt l.
Proof.
  intros Hs Hn. apply Sorted_StronglySorted in Hs; [|apply _].
  induction Hs as [|x l Hs IH Hx]; [constructor|].
  apply list.NoDup_cons in Hn as [Hx' Hn]. constructor; [by apply IH|].
  rewrite Forall_forall in Hx |- *. intros y Hy.
  destruct (Qcle_lt_or_eq _ _ (Hx y Hy)) as [Hlt | Heq]; [done|].
  subst y. exfalso. by apply Hx', list_elem_of_In.
Qed.

(** The years of a grouped frame come in strictly ascending order. *)
Lemma group_keys_ascending (df : DataFrame) (by_ : string) :
  StronglySorted Qclt (Pd.group_keys df by_).
Proof.
  apply Sorted_le_NoDup_lt;
    [apply group_keys_Sorted | apply group_keys_NoDup].
Qed.

#[local] Instance key_le_total : Total Pd.key_le.
Proof. intros a b. apply (total Qcle). Qed.

#[local] Instance key_le_trans : Transitive Pd.key_le.
Proof. intros a b c. unfold Pd.key_le. apply Qcle_trans. Qed.

Lemma groupby_mean_keys (df : DataFrame) (by_ col : string) :
  (Pd.groupby_mean df by_ col).*1 = Pd.group_keys df by_.
Proof.
  unfold Pd.groupby_mean. rewrite <- list_fmap_compose.
  apply list_fmap_id.
Qed.

(** [groupby] already sorts by key, so the [sort_values] and [sort_index]
    that follow it change nothing. *)
Lemma sort_values_groupby_mean (df : DataFrame) (by_ col : string) :
  Pd.sort_values (Pd.groupby_mean df by_ col) = Pd.groupby_mean df by_ col.
Proof.
  unfold Pd.sort_values.
  apply (Sorted_unique_strong Pd.key_le).
  - intros [k1 v1] [k2 v2] H1 H2 Hle1 Hle2.
    rewrite merge_sort_Permutation in H1.
    unfold Pd.groupby_mean in H1, H2.
    apply list_elem_of_fmap in H1 as (k1' & [= -> ->] & _).
    apply list_elem_of_fmap in H2 as (k2' & [= -> ->] & _).
    unfold Pd.key_le in *. simpl in *.
    by rewrite (Qcle_antisym _ _ Hle1 Hle2).
  - apply (Sorted_merge_sort Pd.key_le).
  - unfold Pd.groupby_mean.
    apply (Sorted_fmap _ Qcle Pd.key_le); [by intros ??|].
    apply group_keys_Sorted.
  - apply merge_sort_Permutation.
Qed.

(** ** Rounding *)

Ltac Qc_to_Q :=
  repeat progress
    (unfold Qcle, Qclt, Qcminus, Qcplus, Qcopp, Qcmult, Qcdiv, Qcinv, QcZ,
       Q2Qc in *;
     cbn [this] in *; rewrite ?Qred_correct in *);
  rewrite ?inject_Z_plus in *;
  change (inject_Z 1) with 1%Q in *;
  change (/ inject_Z 100)%Q with (1 # 100)%Q in *;
  change (inject_Z 100) with (100 # 1)%Q in *.

Lemma round_half_even_near (q : Qc) :
  (QcZ (F.round_half_even q) - q <= Q2Qc (1 # 2))%Qc /\
  (q - QcZ (F.round_half_even q) <= Q2Qc (1 # 2))%Qc.
Proof.
  unfold F.round_half_even.
  pose proof (Qfloor_le q) as Hlo. pose proof (Qlt_floor q) as Hhi.
  set (f := Qfloor q) in *.
  destruct (Qc_ltb (q - QcZ f) (Q2Qc (1 # 2))) eqn:E1;
    [apply Qc_ltb_lt in E1 | apply Qc_ltb_ge in E1].
  - Qc_to_Q. split; lra.
  - destruct (Qc_ltb (Q2Qc (1 # 2)) (q - QcZ f)) eqn:E2;
      [apply Qc_ltb_lt in E2 | apply Qc_ltb_ge in E2].
    + Qc_to_Q. split; lra.
    + destruct (Z.even f); Qc_to_Q; split; lra.
Qed.

(** [round(x, 2)] of a finite [x] is a multiple of 1/100 at most 1/200
    away from [x]. *)
Lemma round_2_near (q : Qc) :
  exists z : Z,
    F.round (Fin q) 2 = Fin (QcZ z / QcZ 100)%Qc /\
    (QcZ z / QcZ 100 - q <= Q2Qc (1 # 200))%Qc /\
    (q - QcZ z / QcZ 100 <= Q2Qc (1 # 200))%Qc.
Proof.
  exists (F.round_half_even (q * QcZ 100)%Qc). split; [done|].
  destruct (round_half_even_near (q * QcZ 100)%Qc) as [H1 H2].
  set (z := F.round_half_even _) in *. clearbody z.
  Qc_to_Q. split; lra.
Qed.

Lemma round_two_decimals (x : pyfloat) : two_decimals (F.round x 2).
Proof.
  destruct x as [q| |]; [|done..].
  destruct (round_2_near q) as (z & -> & _). by exists z.
Qed.

(** ** Charts *)

Lemma chart_labels_groupby (f : DataFrame) (yc mc : string) :
  chart_labels (Pd.groupby_mean f yc mc) = F.trunc <$> Pd.group_keys f yc.
Proof.
  unfold chart_labels, Pd.groupby_mean. by rewrite <- list_fmap_compose.
Qed.

Lemma chart_data_groupby (f : DataFrame) (yc mc : string) :
  chart_data (Pd.groupby_mean f yc mc) =
    rounded_mean f yc mc <$> Pd.group_keys f yc.
Proof.
  unfold chart_data, Pd.groupby_mean. by rewrite <- list_fmap_compose.
Qed.

Lemma compare_step_rows (df : DataFrame) (yc mc area : string)
    (Y : gset Z) (D : list Comparison.dataset) :
  has_rows (filter_by_area df area) ->
  compare_step df yc mc (Y, D) area =
    (Y ∪ area_years df yc area, (D ++ [area_dataset df yc mc area])%list).
Proof.
  unfold has_rows, compare_step. intros ->. simpl.
  by rewrite sort_values_groupby_mean, chart_labels_groupby,
    chart_data_groupby.
Qed.

Lemma compare_step_no_rows (df : DataFrame) (yc mc area : string)
    (st : gset Z * list Comparison.dataset) :
  ~ has_rows (filter_by_area df area) ->
  compare_step df yc mc st area = st.
Proof.
  unfold has_rows, compare_step. intros H. destruct st as [Y D].
  by destruct (Pd.empty (filter_by_area df area)).
Qed.

(** The loop of [compare_areas]: the areas without rows leave the state
    alone, every other area adds its years and appends its dataset. *)
Lemma compare_loop (df : DataFrame) (yc mc : string) (areas : list string)
    (Y : gset Z) (D : list Comparison.dataset) :
  fold_left (compare_step df yc mc) areas (Y, D) =
    (Y ∪ ⋃ (area_years df yc <$> areas_with_rows df areas),
     (D ++ (area_dataset df yc mc <$> areas_with_rows df areas))%list).
Proof.
  revert Y D. induction areas as [|area areas IH]; intros Y D;
    cbn [fold_left].
  - simpl. f_equal; [by rewrite (right_id_L ∅ (∪)) | by rewrite app_nil_r].
  - unfold areas_with_rows in *. rewrite filter_cons.
    destruct (decide (has_rows (filter_by_area df area))) as [Hr|Hr].
    + rewrite compare_step_rows, IH by done. simpl.
      f_equal; [by rewrite (assoc_L (∪)) | by rewrite <- app_assoc].
    + by rewrite compare_step_no_rows, IH.
Qed.

Lemma sorted_years_ascending (Y : gset Z) :
  StronglySorted Z.lt (sorted_years Y).
Proof.
  unfold sorted_years.
  assert (Hn : NoDup (merge_sort Z.le (elements Y))).
  { rewrite merge_sort_Permutation. apply NoDup_elements. }
  assert (Hs : StronglySorted Z.le (merge_sort Z.le (elements Y))).
  { apply (StronglySorted_merge_sort Z.le). }
  induction Hs as [|x l Hs IH Hx]; [constructor|].
  apply list.NoDup_cons in Hn as [Hx' Hn]. constructor; [by apply IH|].
  rewrite Forall_forall in Hx |- *. intros y Hy.
  assert (x <> y) by (intros ->; by apply Hx', list_elem_of_In).
  specialize (Hx y Hy). lia.
Qed.

Lemma elem_of_sorted_years (Y : gset Z) (y : Z) :
  y ∈ sorted_years Y <-> y ∈ Y.
Proof.
  unfold sorted_years. by rewrite merge_sort_Permutation, elem_of_elements.
Qed.

Lemma has_token_nonempty (token col : string) :
  token <> "" -> has_token token col = true -> col <> "".
Proof.
  intros Ht H ->. apply contains_occurs in H as (pre & post & H).
  destruct pre, token; done.
Qed.

Lemma if_both_Some (x y : string) :
  x <> "" -> y <> "" -> Py.if_both (Some x) (Some y) = Some (x, y).
Proof.
  intros Hx Hy. unfold Py.if_both, Py.if_.
  apply String.eqb_neq in Hx, Hy. by rewrite Hx, Hy.
Qed.

Lemma if_both_None_l (y : option string) : Py.if_both None y = None.
Proof. done. Qed.

Lemma if_both_None_r (x : option string) : Py.if_both x None = None.
Proof. unfold Py.if_both. by destruct (Py.if_ x id). Qed.

Lemma next_Some {A} (p : A -> bool) (l : list A) (x : A) :
  Py.next p l = Some x -> In x l /\ p x = true.
Proof. apply find_some. Qed.

Lemma next_None {A} (p : A -> bool) (l : list A) :
  (forall x, In x l -> p x = false) -> Py.next p l = None.
Proof.
  unfold Py.next. induction l as [|x l IH]; intros H; simpl; [done|].
  rewrite (H x) by (by left). apply IH. intros y Hy. apply H. by right.
Qed.

Lemma if_both_inv (x y : option string) (a b : string) :
  Py.if_both x y = Some (a, b) -> x = Some a /\ y = Some b.
Proof.
  unfold Py.if_both, Py.if_. destruct x as [x|], y as [y|]; try done.
  - destruct (String.eqb x ""), (String.eqb y ""); try done.
    by intros [= -> ->].
  - by destruct (String.eqb x "").
Qed.

(** ** [compare_areas] *)

(** The years gathered by the loop are the integer years of the compared
    areas that have rows. *)
Lemma elem_of_loop_years (df : DataFrame) (yc : string)
    (areas : list string) (y : Z) :
  y ∈ ⋃ (area_years df yc <$> areas_with_rows df areas) <->
  exists area k,
    area ∈ areas /\ has_rows (filter_by_area df area) /\
    has_year (filter_by_area df area) yc k /\ F.trunc k = y.
Proof.
  rewrite elem_of_union_list. split.
  - intros (X & HX & HyX).
    apply list_elem_of_fmap in HX as (area & -> & Ha).
    apply list_elem_of_filter in Ha as [Hr Ha].
    apply elem_of_list_to_set, list_elem_of_fmap in HyX as (k & -> & Hk).
    exists area, k. split_and!; try done. by apply group_keys_spec.
  - intros (area & k & Ha & Hr & Hk & <-).
    exists (area_years df yc area). split.
    + apply list_elem_of_fmap. exists area. split; [done|].
      by apply list_elem_of_filter.
    + apply elem_of_list_to_set, list_elem_of_fmap. exists k.
      by rewrite group_keys_spec.
Qed.




(** C9: when no column name contains "year", or none contains the metric
    name (both compared in lower case, as the source does), the comparison
    is the initial dictionary: no label, no dataset, and the title. *)
Theorem compare_areas_unresolved_columns (df : DataFrame)
    (areas : list string) (metric : string) :
  (forall col, In col (columns df) ->
     Py.contains "year" (Py.lower col) = false) \/
  (forall col, In col (columns df) ->
     Py.contains (Py.lower metric) (Py.lower col) = false) ->
  compare_areas df areas metric =
    Comparison.mk [] [] (Py.capitalize metric ++ " Comparison").
Proof.
  intros [H | H]; unfold compare_areas.
  - rewrite (next_None (has_token "year") _ H). by rewrite if_both_None_l.
  - rewrite (next_None (has_token (Py.lower metric)) _ H).
    by rewrite if_both_None_r.
Qed.

(** A table without a demand column, compared on demand. *)
Lemma compare_areas_unresolved_columns_witness :
  compare_areas Sample.flat_prices ["Wakad"; "Aundh"] "demand" =
    Comparison.mk [] [] "Demand Comparison".
Proof.
  apply (compare_areas_unresolved_columns Sample.flat_prices
           ["Wakad"; "Aundh"] "demand").
  right. intros col Hcol. simpl in Hcol.
  destruct Hcol as [<- | [<- | [<- | []]]]; reflexivity.
Defined.

(** ** Rounded series *)

Lemma round_rounded_from (m : pyfloat) : rounded_from m (F.round m 2).
Proof.
  split; [done|]. destruct m as [q| |]; [|done..]. apply round_2_near.
Qed.

Ltac trend_cases :=
  match goal with
  | |- context [Pd.empty ?f] => destruct (Pd.empty f); [by split|]
  end;
  match goal with
  | |- context [Py.if_both ?x ?y] =>
      let E := fresh "E" in
      let yc := fresh "yc" in
      let col := fresh "col" in
      destruct (Py.if_both x y) as [[yc col]|] eqn:E; [|by split];
      apply if_both_inv in E as [? ?];
      exists yc, col; cbn [Trend.labels Trend.data];
      by rewrite sort_values_groupby_mean, chart_labels_groupby,
        chart_data_groupby
  end.

Lemma get_price_trend_rounded (df : DataFrame) (area : string) :
  is_rounded_trend (filter_by_area df area) "price"
    (get_price_trend df area).
Proof. unfold is_rounded_trend, get_price_trend. cbv zeta. trend_cases. Qed.

Lemma get_demand_trend_rounded (df : DataFrame) (area : string) :
  is_rounded_trend (filter_by_area df area) "demand"
    (get_demand_trend df area).
Proof. unfold is_rounded_trend, get_demand_trend. cbv zeta. trend_cases. Qed.

Lemma compare_areas_labels_int (df : DataFrame) (areas : list string)
    (metric : string) (y : Z) :
  y ∈ Comparison.labels (compare_areas df areas metric) ->
  exists area yc k,
    area ∈ areas /\ has_year (filter_by_area df area) yc k /\
    F.trunc k = y.
Proof.
  unfold compare_areas.
  destruct (Py.if_both _ _) as [[yc mc]|]; [|by inversion 1].
  rewrite compare_loop. cbn [Comparison.labels].
  rewrite (left_id_L ∅ (∪)), elem_of_sorted_years, elem_of_loop_years.
  intros (area & k & ? & _ & ? & ?). by exists area, yc, k.
Qed.

Lemma compare_areas_rounded (df : DataFrame) (areas : list string)
    (metric : string) :
  Forall
    (fun ds =>
       let f := filter_by_area df (Comparison.label ds) in
       exists yc col,
         Comparison.data ds = rounded_mean f yc col <$> Pd.group_keys f yc)
    (Comparison.datasets (compare_areas df areas metric)).
Proof.
  unfold compare_areas.
  destruct (Py.if_both _ _) as [[yc mc]|]; [|by constructor].
  rewrite compare_loop. cbn [Comparison.datasets]. rewrite app_nil_l.
  apply Forall_fmap, Forall_true. intros area. by exists yc, mc.
Qed.

(** C10: the data of [get_price_trend], [get_demand_trend] and
    [compare_areas] are the per-year means rounded to two decimals by
    [round(float(v), 2)], and the labels of a trend and of a comparison
    are years turned into integers by [int(y)]; the dictionaries hold
    nothing else of the means. *)
Theorem chart_series_are_rounded (df : DataFrame) (area : string)
    (areas : list string) (metric : string) :
  is_rounded_trend (filter_by_area df area) "price"
    (get_price_trend df area) /\
  is_rounded_trend (filter_by_area df area) "demand"
    (get_demand_trend df area) /\
  Forall
    (fun ds =>
       let f := filter_by_area df (Comparison.label ds) in
       exists yc col,
         Comparison.data ds = rounded_mean f yc col <$> Pd.group_keys f yc)
    (Comparison.datasets (compare_areas df areas metric)) /\
  (forall y : Z,
     y ∈ Comparison.labels (compare_areas df areas metric) ->
     exists area yc k,
       area ∈ areas /\ has_year (filter_by_area df area) yc k /\
       F.trunc k = y) /\
  (forall f yc col k,
     rounded_from (Pd.mean (Pd.numbers (Pd.group f yc k) col))
       (rounded_mean f yc col k)).
Proof.
  split; [apply get_price_trend_rounded|].
  split; [apply get_demand_trend_rounded|].
  split; [apply compare_areas_rounded|].
  split; [apply compare_areas_labels_int|].
  intros. apply round_rounded_from.
Qed.

(** The yearly means 112.5 and 71.5 of Wakad for 2021 are returned as
    they are, the mean 256/3 of a third of the prices as 85.33. *)
Example rounded_series_sample :
  Trend.labels (get_price_trend Sample.two_areas "WAKAD") = [2020; 2021] /\
  Fmt.fixed false 4 <$> Trend.data (get_price_trend Sample.two_areas "WAKAD")
    = ["100.0000"; "112.5000"] /\
  Fmt.fixed false 4 <$> Trend.data (get_demand_trend Sample.two_areas "wakad")
    = ["70.0000"; "71.5000"] /\
  Fmt.fixed false 4 (F.round (Fin (Q2Qc (256 # 3))) 2) = "85.3300".
Proof. repeat split; by vm_compute. Qed.

(** ** [filter_by_area] *)

Lemma area_matches_equals_ci (df : DataFrame) (c a : string) (r : list cell) :
  area_matches df c a r <-> area_equals_ci df c a r.
Proof.
  unfold area_matches, area_equals_ci.
  destruct (Pd.at_ df c r) as [|v|q]; simpl; split;
    try done; try by intros (? & ? & _).
  - intros [= E]. by exists v.
  - by intros (v' & [= <-] & ->).
Qed.

Lemma filter_by_area_rows (df : DataFrame) (a c : string) (rest : list string) :
  area_columns df = c :: rest ->
  filter_by_area df a =
    mkDataFrame (columns df) (filter (area_equals_ci df c a) (rows df)).
Proof.
  intros H. unfold filter_by_area. rewrite H. f_equal.
  apply list_filter_iff. intros r. apply area_matches_equals_ci.
Qed.

Lemma filter_by_area_no_column (df : DataFrame) (a : string) :
  area_columns df = [] -> filter_by_area df a = Pd.DataFrame_.
Proof. intros H. unfold filter_by_area. by rewrite H. Qed.

Lemma filter_by_area_idempotent (df : DataFrame) (a : string) :
  filter_by_area (filter_by_area df a) a = filter_by_area df a.
Proof.
  destruct (area_columns df) as [|c rest] eqn:E.
  - by rewrite (filter_by_area_no_column df a E).
  - rewrite (filter_by_area_rows df a c rest E).
    erewrite filter_by_area_rows by exact E. cbn [columns rows]. f_equal.
    by apply list_filter_filter_l.
Qed.

Lemma area_columns_In (df : DataFrame) (c : string) (rest : list string) :
  area_columns df = c :: rest -> columns df <> [].
Proof. unfold area_columns. by destruct (columns df). Qed.

Lemma has_rows_columns (df : DataFrame) (a : string) :
  has_rows (filter_by_area df a) ->
  columns (filter_by_area df a) = columns df.
Proof.
  unfold has_rows, filter_by_area.
  by destruct (area_columns df).
Qed.

Lemma get_available_areas_spec (df : DataFrame) (a c : string)
    (rest : list string) :
  area_columns df = c :: rest ->
  a ∈ get_available_areas df <->
  exists r, r ∈ rows df /\ Pd.at_ df c r = Str a.
Proof.
  intros H. unfold get_available_areas, sorted_str, Pd.text. rewrite H.
  rewrite merge_sort_Permutation, elem_of_remove_dups, list_elem_of_omap.
  split.
  - intros (o & Ho & Ha). simpl in Ha. subst o.
    apply list_elem_of_fmap in Ho as (r & Hr & Hin). exists r.
    split; [done|]. by destruct (Pd.at_ df c r); simplify_eq/=.
  - intros (r & Hin & Hr). exists (Some a). split; [|done].
    apply list_elem_of_fmap. exists r. by rewrite Hr.
Qed.

(** C7: [filter_by_area] keeps, in order, exactly the rows whose value in
    the area column equals the area up to case; it is idempotent; a known
    area has rows; and without an area column the result is the empty
    frame, whatever the area. *)
Theorem filter_by_area_exact_and_idempotent (df : DataFrame) (a : string) :
  (forall c rest,
     area_columns df = c :: rest ->
     columns (filter_by_area df a) = columns df /\
     rows (filter_by_area df a) = filter (area_equals_ci df c a) (rows df)) /\
  filter_by_area (filter_by_area df a) a = filter_by_area df a /\
  (a ∈ get_available_areas df -> has_rows (filter_by_area df a)) /\
  (area_columns df = [] ->
   filter_by_area df a = Pd.DataFrame_ /\ rows (filter_by_area df a) = []).
Proof.
  split; [|split; [apply filter_by_area_idempotent|split]].
  - intros c rest H. by rewrite (filter_by_area_rows df a c rest H).
  - intros Ha. destruct (area_columns df) as [|c rest] eqn:E.
    { unfold get_available_areas in Ha. rewrite E in Ha. by inv Ha. }
    destruct (proj1 (get_available_areas_spec df a c rest E) Ha)
      as (r & Hin & Hr).
    rewrite (filter_by_area_rows df a c rest E). unfold has_rows, Pd.empty.
    cbn [columns rows].
    assert (Hne : r ∈ filter (area_equals_ci df c a) (rows df)).
    { apply list_elem_of_filter. split; [by exists a | done]. }
    pose proof (area_columns_In df c rest E).
    destruct (columns df); [done|].
    by destruct (filter _ _); [inv Hne|].
  - intros H. by rewrite (filter_by_area_no_column df a H).
Qed.

(** Filtering the sample by "WAKAD" keeps the three rows of Wakad, written
    in either case, and filtering again changes nothing. *)
Example filter_by_area_sample :
  rows (filter_by_area Sample.two_areas "WAKAD") =
    [ [Str "Wakad"; Num 2020; Num 100; Num 70];
      [Str "wakad"; Num 2021; Num 110; Num 71];
      [Str "Wakad"; Num 2021; Num 115; Num 72] ] /\
  filter_by_area (filter_by_area Sample.two_areas "WAKAD") "WAKAD" =
    filter_by_area Sample.two_areas "WAKAD" /\
  filter_by_area Sample.no_area_column "Pune" = Pd.DataFrame_.
Proof. repeat split; by vm_compute. Qed.

(** ** The data-absent outcome *)

Lemma no_rows_empty (df : DataFrame) (area : string) :
  rows (filter_by_area df area) = [] ->
  Pd.empty (filter_by_area df area) = true.
Proof. unfold Pd.empty. intros ->. by destruct (columns _). Qed.

(** Without an area column every filter has zero rows. *)
Lemma no_area_column_no_rows (df : DataFrame) (area : string) :
  area_columns df = [] -> rows (filter_by_area df area) = [].
Proof. intros H. by rewrite (filter_by_area_no_column df area H). Qed.

(** The three outcomes of [get_summary_stats]: the data-absent
    dictionary, the [TypeError] of the size column, or the summary. *)
Lemma get_summary_stats_outcome (df : DataFrame) (area : string) :
  let filtered := filter_by_area df area in
  get_summary_stats df area =
    if Pd.empty filtered then
      inr (Stats.NoData ("No data found for " ++ area))
    else if size_text df area then inl TypeError
    else
      inr (Stats.Summary
             (stats_dict df area
                (Py.if_ (Py.next (is_size_column df) (columns filtered))
                   (fun size_col =>
                      Pd.mean (Pd.numbers filtered size_col))))).
Proof.
  cbv zeta. unfold get_summary_stats, size_text, Pd.Series_mean. cbv zeta.
  destruct (Pd.empty (filter_by_area df area)); [done|].
  destruct (Py.next (is_size_column df) _) as [c|]; [|done].
  unfold Py.if_. destruct (String.eqb c ""); [done|]. unfold id.
  by destruct (existsb Pd.is_text _).
Qed.

(** C8: when the filter of an area has zero rows, [get_summary_stats]
    does not raise: it returns the dictionary with the [error] key.
    [generate_summary] of it is the error narrative, whose suggestion list
    is the first 5 of the available areas, or all of them when there are
    fewer. *)
Theorem get_summary_stats_no_data (df : DataFrame) (area : string) :
  rows (filter_by_area df area) = [] ->
  exists stats,
    get_summary_stats df area = inr stats /\
    stats = Stats.NoData ("No data found for " ++ area) /\
    exists suggestions : list string,
      generate_summary df area stats None =
        "❌ I couldn't find any data for **" ++ area ++
        "**. Please check the spelling or try another area." ++ nl ++ nl ++
        "Available areas: " ++ Py.join ", " suggestions ++ "..." /\
      suggestions = firstn 5 (get_available_areas df) /\
      length suggestions = Nat.min 5 (length (get_available_areas df)) /\
      (length suggestions <= 5)%nat /\
      suggestions `prefix_of` get_available_areas df.
Proof.
  intros H. apply no_rows_empty in H.
  eexists. split.
  { rewrite get_summary_stats_outcome. cbv zeta. by rewrite H. }
  split; [done|].
  exists (firstn 5 (get_available_areas df)). split; [done|].
  split; [done|]. rewrite length_firstn.
  split; [done|]. split; [lia | apply prefix_take].
Qed.

(** An unknown area on the sample with seven areas: five suggestions. *)
Lemma get_summary_stats_no_data_witness :
  exists stats,
    get_summary_stats Sample.seven_areas "Kharadi" = inr stats /\
    stats = Stats.NoData "No data found for Kharadi" /\
    exists suggestions : list string,
      generate_summary Sample.seven_areas "Kharadi" stats None =
        "❌ I couldn't find any data for **" ++ "Kharadi" ++
        "**. Please check the spelling or try another area." ++ nl ++ nl ++
        "Available areas: " ++ Py.join ", " suggestions ++ "..." /\
      suggestions = ["Aundh"; "Baner"; "Hinjewadi"; "Kothrud"; "Pashan"] /\
      length suggestions = 5%nat /\
      (length suggestions <= 5)%nat /\
      suggestions `prefix_of` get_available_areas Sample.seven_areas.
Proof.
  apply (get_summary_stats_no_data Sample.seven_areas "Kharadi").
  reflexivity.
Defined.

(** The two error narratives in full: five of seven areas, and an empty
    list when there is no area column. *)
Example no_data_narratives :
  generate_summary Sample.seven_areas "Kharadi"
    (Stats.NoData "No data found for Kharadi") None =
    "❌ I couldn't find any data for **Kharadi**. " ++
    "Please check the spelling or try another area." ++ nl ++ nl ++
    "Available areas: Aundh, Baner, Hinjewadi, Kothrud, Pashan..." /\
  get_summary_stats Sample.no_area_column "Pune" =
    inr (Stats.NoData "No data found for Pune") /\
  generate_summary Sample.no_area_column "Pune"
    (Stats.NoData "No data found for Pune") None =
    "❌ I couldn't find any data for **Pune**. " ++
    "Please check the spelling or try another area." ++ nl ++ nl ++
    "Available areas: ...".
Proof. repeat split; by vm_compute. Qed.

(** ** The size column *)

(** The column list "area_size", "year", "price": the column of the area
    role is also taken as the size column. *)
Lemma size_column_is_area_column :
  _get_area_column Sample.area_size = "area_size" /\
  Py.next (is_size_column Sample.area_size) (columns Sample.area_size) =
    Some "area_size".
Proof. split; by vm_compute. Qed.

(** The part of the exclusion that works: a size column that was matched
    by the token "area", that is, whose name does not contain "size", is
    not the column of the area role. *)
Lemma size_by_area_token_not_area_column (df : DataFrame) (col : string) :
  Py.next (is_size_column df) (columns df) = Some col ->
  Py.contains "size" (Py.lower col) = false ->
  Py.contains "area" (Py.lower col) = true /\ col <> _get_area_column df.
Proof.
  intros H Hsize. apply next_Some in H as [_ H].
  unfold is_size_column in H. rewrite Hsize in H. simpl in H.
  apply andb_true_iff in H as [Harea Hne]. split; [done|].
  apply negb_true_iff in Hne. by apply String.eqb_neq.
Qed.

(** The rows of an area hold text in the area column. *)
Lemma filter_by_area_text (df : DataFrame) (area c : string)
    (rest : list string) (r : list cell) :
  area_columns df = c :: rest ->
  r ∈ rows (filter_by_area df area) ->
  Pd.is_text (Pd.at_ (filter_by_area df area) c r) = true.
Proof.
  intros H. unfold filter_by_area. rewrite H. cbn [rows].
  intros [Hm _]%list_elem_of_filter. unfold area_matches in Hm.
  unfold Pd.at_ in *. cbn [columns].
  by destruct (nth _ r NA).
Qed.

(** C6, the failing inputs: the exclusion of line 141 guards the token
    "area" only ([and] binds tighter than [or]), so the column of the area
    role is taken as the size column as well when its name contains
    "size".  Whenever the two roles fall on one column, its name contains
    "size", and the statistics of every area that has rows raise the
    [TypeError] of line 166, the mean of area names. *)
Theorem double_assigned_size_column_raises (df : DataFrame)
    (area col : string) :
  _get_area_column df = col ->
  Py.next (is_size_column df) (columns df) = Some col ->
  has_rows (filter_by_area df area) ->
  Py.contains "size" (Py.lower col) = true /\
  size_text df area = true /\
  get_summary_stats df area = inl TypeError.
Proof.
  intros Ha Hs Hr.
  assert (Hsize : Py.contains "size" (Py.lower col) = true).
  { destruct (Py.contains "size" (Py.lower col)) eqn:E; [done|].
    destruct (size_by_area_token_not_area_column df col Hs E) as [_ Hne].
    by rewrite Ha in Hne. }
  assert (Ht : size_text df area = true).
  { unfold size_text. cbv zeta. rewrite (has_rows_columns df area Hr), Hs.
    unfold Py.if_. destruct (String.eqb_spec col "") as [->|_]; [done|].
    unfold id, Pd.cells. unfold _get_area_column in Ha.
    destruct (area_columns df) as [|c rest] eqn:Ec.
    { unfold has_rows in Hr. by rewrite (filter_by_area_no_column df area Ec)
        in Hr. }
    subst c. unfold has_rows, Pd.empty in Hr.
    destruct (rows (filter_by_area df area)) as [|r l] eqn:El.
    { by destruct (columns (filter_by_area df area)). }
    cbn [fmap list_fmap existsb].
    rewrite (filter_by_area_text df area col rest r Ec); [done|].
    rewrite El. by left. }
  split; [done|]. split; [done|].
  rewrite get_summary_stats_outcome. cbv zeta.
  unfold has_rows in Hr. by rewrite Hr, Ht.
Qed.

(** The sheet with the columns "area_size", "year" and "price": the
    statistics of Wakad raise. *)
Lemma double_assigned_size_column_raises_witness :
  Py.contains "size" (Py.lower "area_size") = true /\
  size_text Sample.area_size "Wakad" = true /\
  get_summary_stats Sample.area_size "Wakad" = inl TypeError.
Proof.
  apply (double_assigned_size_column_raises Sample.area_size "Wakad"
           "area_size"); reflexivity.
Defined.

(** The size column "carpet_area" next to the area column "area": the
    two roles are on different columns, and the statistics are returned. *)
Example size_column_carpet_area :
  Py.next (is_size_column Sample.carpet_area) (columns Sample.carpet_area) =
    Some "carpet_area" /\
  _get_area_column Sample.carpet_area = "area" /\
  exists s,
    get_summary_stats Sample.carpet_area "Wakad" = inr (Stats.Summary s) /\
    Stats.avg_size s = Some (Fin 650).
Proof.
  split; [by vm_compute|]. split; [by vm_compute|].
  eexists. split; [reflexivity|]. vm_compute. by do 2 f_equal.
Qed.

(** ** Price growth *)

Lemma List_last_last {A} (l : list A) (d : A) :
  List.last l d = default d (list.last l).
Proof.
  induction l as [|x l IH]; [done|].
  destruct l as [|y l]; [done|].
  rewrite last_cons_cons. by rewrite <- IH.
Qed.

(** On finite means with a first year mean other than zero the growth is
    the rational [(last - first) / first * 100]. *)
Lemma growth_finite (first last : Qc) :
  first <> QcZ 0 ->
  growth (Fin first) (Fin last) =
    Fin ((last - first) / first * QcZ 100)%Qc.
Proof.
  intros H. unfold growth, F.sub, F.div.
  destruct (Qc_eqb first 0%Z) eqn:E; [by apply Qc_eqb_eq in E|done].
Qed.

Lemma growth_100_110 : growth (Fin 100%Z) (Fin 110%Z) = Fin 10%Z.
Proof.
  rewrite growth_finite by done. f_equal. by apply Qc_is_canon.
Qed.

Lemma get_summary_stats_growth (df : DataFrame) (area pc yc : string)
    (s : Stats.summary) :
  Py.next (has_token "price") (columns (filter_by_area df area)) = Some pc ->
  Py.next (has_token "year") (columns (filter_by_area df area)) = Some yc ->
  get_summary_stats df area = inr (Stats.Summary s) ->
  Stats.growth s =
    price_growth (Pd.groupby_mean (filter_by_area df area) yc pc).
Proof.
  intros Hp Hy. rewrite get_summary_stats_outcome. cbv zeta.
  destruct (Pd.empty _); [done|]. destruct (size_text df area); [done|].
  intros [= <-]. unfold stats_dict. cbv zeta. cbn [Stats.growth].
  rewrite Hp, Hy.
  rewrite if_both_Some, sort_values_groupby_mean; [done|..].
  - apply (has_token_nonempty "price"); [done|].
    by apply next_Some in Hp as [_ ?].
  - apply (has_token_nonempty "year"); [done|].
    by apply next_Some in Hy as [_ ?].
Qed.

(** C5: with a price and a year column, [yearly] holds one mean price per
    distinct year of the filtered rows, in ascending year order.  In every
    summary that [get_summary_stats] returns, with two years or more the
    growth block is there and its percentage is
    [(last - first) / first * 100] on the first and the last of these
    means, and with fewer years the growth block is left out.  The summary
    is returned unless the size column holds text for the area, in which
    case line 166 raises.  The trend (2020, 100), (2021, 110) gives
    exactly 10. *)
Theorem price_growth_pct_formula (df : DataFrame) (area pc yc : string) :
  let f := filter_by_area df area in
  let yearly := Pd.groupby_mean f yc pc in
  has_rows f ->
  Py.next (has_token "price") (columns f) = Some pc ->
  Py.next (has_token "year") (columns f) = Some yc ->
  StronglySorted Qclt yearly.*1 /\
  (forall k, k ∈ yearly.*1 <-> has_year f yc k) /\
  (forall k m,
     (k, m) ∈ yearly -> m = Pd.mean (Pd.numbers (Pd.group f yc k) pc)) /\
  (forall s,
     get_summary_stats df area = inr (Stats.Summary s) ->
     match yearly, list.last yearly with
     | (y0, first_mean) :: _ :: _, Some (y1, last_mean) =>
         Stats.growth s =
           Some (Stats.mkGrowth
                   (F.mul (F.div (F.sub last_mean first_mean) first_mean)
                      (Fin 100))
                   (pretty (F.trunc y0) ++ "-" ++ pretty (F.trunc y1)))
     | _, _ => Stats.growth s = None
     end) /\
  (size_text df area = false ->
   exists s, get_summary_stats df area = inr (Stats.Summary s)) /\
  (size_text df area = true -> get_summary_stats df area = inl TypeError) /\
  (forall first_mean last_mean : Qc,
     first_mean <> QcZ 0 ->
     F.mul (F.div (F.sub (Fin last_mean) (Fin first_mean)) (Fin first_mean))
       (Fin 100) =
     Fin ((last_mean - first_mean) / first_mean * QcZ 100)%Qc) /\
  price_growth [(QcZ 2020, Fin 100); (QcZ 2021, Fin 110)] =
    Some (Stats.mkGrowth (Fin 10) "2020-2021").
Proof.
  cbv zeta. intros Hr Hp Hy.
  rewrite groupby_mean_keys.
  split; [apply group_keys_ascending|].
  split; [intros k; apply group_keys_spec|].
  split; [|split; [|split; [|split; [|split]]]].
  - intros k m Hkm. unfold Pd.groupby_mean in Hkm.
    by apply list_elem_of_fmap in Hkm as (k' & [= -> ->] & _).
  - intros s Hs.
    rewrite (get_summary_stats_growth df area pc yc s Hp Hy Hs).
    unfold price_growth.
    destruct (Pd.groupby_mean _ yc pc) as [|[y0 m0] [|p2 rest]]; [done..|].
    rewrite List_last_last.
    destruct (list.last _) as [[y1 m1]|] eqn:El; [done|].
    by apply last_None in El.
  - intros Ht. rewrite get_summary_stats_outcome. cbv zeta.
    unfold has_rows in Hr. rewrite Hr, Ht. by eexists.
  - intros Ht. rewrite get_summary_stats_outcome. cbv zeta.
    unfold has_rows in Hr. by rewrite Hr, Ht.
  - apply growth_finite.
  - unfold price_growth. cbn [List.hd List.last length Nat.ltb Nat.leb].
    by rewrite growth_100_110.
Qed.

(** The summary of Wakad on the sample (2020, 100), (2021, 110): a growth
    of exactly 10 over "2020-2021". *)
Lemma price_growth_pct_formula_witness :
  exists s,
    get_summary_stats Sample.growth_10 "Wakad" = inr (Stats.Summary s) /\
    Stats.growth s = Some (Stats.mkGrowth (Fin 10) "2020-2021").
Proof.
  destruct (price_growth_pct_formula Sample.growth_10 "Wakad" "price" "year"
              eq_refl eq_refl eq_refl) as (_ & _ & _ & Hg & He & _).
  destruct (He eq_refl) as [s Hs]. exists s. split; [exact Hs|].
  specialize (Hg s Hs).
  vm_compute in Hg. etransitivity; [exact Hg|].
  do 3 f_equal. by apply Qc_is_canon.
Defined.

(** With a size column that is the column of the areas there is no
    summary to hold a growth: the statistics raise. *)
Example growth_lost_to_the_size_column :
  get_summary_stats
    (mkDataFrame ["area_size"; "year"; "price"]
       [ [Str "Wakad"; Num 2020; Num 100];
         [Str "Wakad"; Num 2021; Num 110] ]) "Wakad" = inl TypeError.
Proof. reflexivity. Qed.

(** One year only: the summary has a price block and no growth block. *)
Example single_year_no_growth :
  exists s,
    get_summary_stats Sample.seven_areas "baner" = inr (Stats.Summary s) /\
    Stats.total_records s = 1%nat /\
    Stats.growth s = None /\
    Fmt.fixed true 0 <$> (Stats.avg_price <$> Stats.price s) = Some "100".
Proof. eexists. split; [reflexivity|]. repeat split; by vm_compute. Qed.

(** In binary64 arithmetic too the trend (2020, 100), (2021, 110) gives
    exactly 10.0. *)
Example growth_binary64_100_110 :
  Binary64.growth Binary64.of_nat_100 Binary64.of_nat_110 =
    Binary64.of_nat_10.
Proof. reflexivity. Qed.

(** A first year mean of zero: the growth is [inf], not an error. *)
Example growth_from_zero :
  growth (Fin 0) (Fin 110) = Inf false /\ growth (Fin 0) (Fin 0) = NaN.
Proof. split; by vm_compute. Qed.

(** * Further properties of the data processor *)

(** ** The order of strings *)

Definition str_lt (a b : string) : Prop := String.ltb a b = true.

Lemma ascii_compare_lt_trans (a b c : ascii) :
  Ascii.compare a b = Lt -> Ascii.compare b c = Lt -> Ascii.compare a c = Lt.
Proof.
  unfold Ascii.compare. rewrite !N.compare_lt_iff. apply N.lt_trans.
Qed.

Lemma string_compare_lt_trans (s1 s2 s3 : string) :
  String.compare s1 s2 = Lt -> String.compare s2 s3 = Lt ->
  String.compare s1 s3 = Lt.
Proof.
  revert s2 s3. induction s1 as [|c1 s1 IH]; intros [|c2 s2] [|c3 s3];
    simpl; try done.
  destruct (Ascii.compare c1 c2) eqn:E12; try done.
  - apply Ascii.compare_eq_iff in E12 as ->.
    destruct (Ascii.compare c2 c3); try done. apply IH.
  - intros _. destruct (Ascii.compare c2 c3) eqn:E23; try done.
    + apply Ascii.compare_eq_iff in E23 as <-. by rewrite E12.
    + by rewrite (ascii_compare_lt_trans _ _ _ E12 E23).
Qed.

#[local] Instance str_lt_trans : Transitive str_lt.
Proof.
  intros a b c. unfold str_lt, String.ltb.
  destruct (String.compare a b) eqn:E1; try done.
  destruct (String.compare b c) eqn:E2; try done.
  by rewrite (string_compare_lt_trans _ _ _ E1 E2).
Qed.

#[local] Instance str_le_total : Total str_le.
Proof. intros a b. apply String.leb_total. Qed.

Lemma str_le_lt (a b : string) : str_le a b -> a <> b -> str_lt a b.
Proof.
  unfold str_le, str_lt, String.leb, String.ltb.
  destruct (String.compare a b) eqn:E; try done.
  by apply String.compare_eq_iff in E.
Qed.

(** A sorted list without duplicates is sorted for the strict order. *)
Lemma Sorted_NoDup_strict {A} (R R' : relation A) (l : list A) :
  (forall a b, R a b -> a <> b -> R' a b) ->
  Sorted R l -> NoDup l -> Sorted R' l.
Proof.
  intros HR Hs. induction Hs as [|x l Hs IH Hx]; intros Hn; [constructor|].
  apply list.NoDup_cons in Hn as [Hx' Hn]. constructor; [by apply IH|].
  destruct Hx as [|y l Hxy]; constructor.
  apply HR; [done|]. intros ->. apply Hx'. by left.
Qed.

(** ** [get_available_areas] *)

(** X1: the available areas come in strictly ascending order of their
    bytes, hence without duplicates; they are the text values of the first
    area column; and there is none when no column is an area column. *)
Theorem available_areas_sorted_distinct (df : DataFrame) :
  StronglySorted str_lt (get_available_areas df) /\
  NoDup (get_available_areas df) /\
  (forall c rest a,
     area_columns df = c :: rest ->
     a ∈ get_available_areas df <->
     exists r, r ∈ rows df /\ Pd.at_ df c r = Str a) /\
  (area_columns df = [] -> get_available_areas df = []).
Proof.
  assert (Hn : NoDup (get_available_areas df)).
  { unfold get_available_areas. destruct (area_columns df); [constructor|].
    unfold sorted_str. rewrite merge_sort_Permutation.
    apply NoDup_remove_dups. }
  split_and!; [|done| |].
  - apply Sorted_StronglySorted; [apply _|].
    apply (Sorted_NoDup_strict str_le); [apply str_le_lt| |done].
    unfold get_available_areas. destruct (area_columns df); [constructor|].
    apply (Sorted_merge_sort str_le).
  - intros c rest a H. by apply get_available_areas_spec with rest.
  - intros H. unfold get_available_areas. by rewrite H.
Qed.

(** The areas of the sample, "Wakad" before "wakad". *)
Example available_areas_sample :
  get_available_areas Sample.two_areas = ["Aundh"; "Wakad"; "wakad"] /\
  get_available_areas Sample.no_area_column = [].
Proof. split; by vm_compute. Qed.

(** ** [load_data]: cleaned column names *)

Ltac by_char c :=
  destruct c as [[] [] [] [] [] [] [] []]; reflexivity.

Lemma lower_char_idemp (c : ascii) :
  Py.lower_char (Py.lower_char c) = Py.lower_char c.
Proof. by_char c. Qed.

Lemma lower_char_is_space (c : ascii) :
  Py.is_space (Py.lower_char c) = Py.is_space c.
Proof. by_char c. Qed.

Lemma lower_char_underscore (c : ascii) :
  Py.lower_char (if Ascii.eqb c " " then "_"%char else c) =
  if Ascii.eqb (Py.lower_char c) " " then "_"%char else Py.lower_char c.
Proof. by_char c. Qed.

Lemma underscore_not_space (c : ascii) :
  Py.is_space c = false ->
  Py.is_space (if Ascii.eqb c " " then "_"%char else c) = false.
Proof. by destruct (Ascii.eqb c " "). Qed.

Lemma lower_idemp (s : string) : Py.lower (Py.lower s) = Py.lower s.
Proof.
  induction s as [|c s IH]; [done|]. simpl.
  by rewrite lower_char_idemp, IH.
Qed.

Lemma lower_replace_space (s : string) :
  Py.lower (Py.replace_char " " "_" s) =
  Py.replace_char " " "_" (Py.lower s).
Proof.
  induction s as [|c s IH]; [done|]. simpl.
  by rewrite lower_char_underscore, IH.
Qed.

Lemma replace_space_idemp (s : string) :
  Py.replace_char " " "_" (Py.replace_char " " "_" s) =
  Py.replace_char " " "_" s.
Proof.
  induction s as [|c s IH]; [done|]. simpl. rewrite IH. f_equal.
  by_char c.
Qed.

Lemma replace_space_no_space (s : string) :
  Py.contains " " (Py.replace_char " " "_" s) = false.
Proof.
  induction s as [|c s IH]; [done|].
  change (Py.replace_char " " "_" (String c s)) with
    (String (if Ascii.eqb c " " then "_"%char else c)
       (Py.replace_char " " "_" s)).
  set (c' := if Ascii.eqb c " " then "_"%char else c).
  change (Py.contains " " (String c' (Py.replace_char " " "_" s))) with
    ((if Ascii.ascii_dec " " c' then String.prefix "" (Py.replace_char " " "_" s)
      else false)
     || Py.contains " " (Py.replace_char " " "_" s)).
  rewrite IH, orb_false_r.
  destruct (Ascii.ascii_dec " " c') as [E|]; [|done].
  exfalso. unfold c' in E. by destruct (Ascii.eqb_spec c " ").
Qed.

Ltac by_cases c :=
  destruct c as [[] [] [] [] [] [] [] []]; done.

(** *** White space *)

(** What follows one white-space character at the head of [s]. *)
Definition space_prefix (s : string) : option string :=
  match s with
  | String c1 s1 =>
      if Py.is_space c1 then Some s1
      else
        match s1 with
        | String c2 s2 =>
            if Py.is_space2 c1 c2 then Some s2
            else
              match s2 with
              | String c3 s3 =>
                  if Py.is_space3 c1 c2 c3 then Some s3 else None
              | EmptyString => None
              end
        | EmptyString => None
        end
  | EmptyString => None
  end.

Lemma lstrip_unfold (s : string) :
  Py.lstrip s =
    match space_prefix s with Some s' => Py.lstrip s' | None => s end.
Proof.
  destruct s as [|c1 s1]; [done|].
  change (Py.lstrip (String c1 s1)) with
    (if Py.is_space c1 then Py.lstrip s1
     else
       match s1 with
       | String c2 s2 =>
           if Py.is_space2 c1 c2 then Py.lstrip s2
           else
             match s2 with
             | String c3 s3 =>
                 if Py.is_space3 c1 c2 c3 then Py.lstrip s3
                 else String c1 s1
             | EmptyString => String c1 s1
             end
       | EmptyString => String c1 s1
       end).
  unfold space_prefix. destruct (Py.is_space c1); [done|].
  destruct s1 as [|c2 s2]; [done|]. destruct (Py.is_space2 c1 c2); [done|].
  destruct s2 as [|c3 s3]; [done|]. by destruct (Py.is_space3 c1 c2 c3).
Qed.

Lemma blank_unfold (c : ascii) (s : string) :
  Py.blank (String c s) =
    match space_prefix (String c s) with
    | Some s' => Py.blank s'
    | None => false
    end.
Proof.
  change (Py.blank (String c s)) with
    (if Py.is_space c then Py.blank s
     else
       match s with
       | String c2 s2 =>
           if Py.is_space2 c c2 then Py.blank s2
           else
             match s2 with
             | String c3 s3 =>
                 if Py.is_space3 c c2 c3 then Py.blank s3 else false
             | EmptyString => false
             end
       | EmptyString => false
       end).
  unfold space_prefix. destruct (Py.is_space c); [done|].
  destruct s as [|c2 s2]; [done|]. destruct (Py.is_space2 c c2); [done|].
  destruct s2 as [|c3 s3]; [done|]. by destruct (Py.is_space3 c c2 c3).
Qed.

Lemma rstrip_unfold (c : ascii) (s : string) :
  Py.rstrip (String c s) =
    if Py.blank (String c s) then "" else String c (Py.rstrip s).
Proof. done. Qed.

Lemma space_prefix_length (s s' : string) :
  space_prefix s = Some s' -> (String.length s' < String.length s)%nat.
Proof.
  unfold space_prefix. intros H.
  repeat case_match; simplify_eq; simpl; lia.
Qed.

Lemma string_length_ind (P : string -> Prop) :
  (forall s, (forall t, (String.length t < String.length s)%nat -> P t) -> P s) ->
  forall s, P s.
Proof.
  intros H s. remember (String.length s) as n eqn:E.
  revert s E. induction n as [n IH] using lt_wf_ind. intros s ->.
  apply H. intros t Ht. by apply (IH (String.length t)).
Qed.

Lemma lstrip_no_space (s : string) : space_prefix (Py.lstrip s) = None.
Proof.
  induction s as [s IH] using string_length_ind. rewrite lstrip_unfold.
  destruct (space_prefix s) as [s'|] eqn:E; [|done].
  by apply IH, space_prefix_length.
Qed.

Lemma lstrip_fix (s : string) : space_prefix s = None -> Py.lstrip s = s.
Proof. intros H. by rewrite lstrip_unfold, H. Qed.

Lemma lstrip_empty (s : string) : Py.lstrip s = "" <-> Py.blank s = true.
Proof.
  induction s as [s IH] using string_length_ind. rewrite lstrip_unfold.
  destruct s as [|c s]; [done|]. rewrite blank_unfold.
  destruct (space_prefix (String c s)) as [s'|] eqn:E; [|done].
  by apply IH, space_prefix_length.
Qed.




Lemma space_prefix_rstrip (c : ascii) (s t : string) :
  space_prefix (String c (Py.rstrip s)) = Some t ->
  exists t0, space_prefix (String c s) = Some t0 /\ t = Py.rstrip t0.
Proof.
  unfold space_prefix. destruct (Py.is_space c).
  { intros [= <-]. by exists s. }
  destruct s as [|c2 s2]; [done|]. rewrite rstrip_unfold.
  destruct (Py.blank (String c2 s2)); [done|].
  destruct (Py.is_space2 c c2).
  { intros [= <-]. by exists s2. }
  destruct s2 as [|c3 s3]; [done|]. rewrite rstrip_unfold.
  destruct (Py.blank (String c3 s3)); [done|].
  destruct (Py.is_space3 c c2 c3); [|done].
  intros [= <-]. by exists s3.
Qed.

(** What [rstrip] leaves of a string that is not blank is not blank. *)
Lemma blank_rstrip (s : string) :
  Py.blank s = false -> Py.blank (Py.rstrip s) = false.
Proof.
  induction s as [s IH] using string_length_ind. intros H.
  destruct s as [|c s]; [done|]. rewrite rstrip_unfold, H.
  rewrite blank_unfold.
  destruct (space_prefix (String c (Py.rstrip s))) as [t|] eqn:E; [|done].
  apply space_prefix_rstrip in E as (t0 & E0 & ->).
  rewrite blank_unfold, E0 in H.
  apply IH; [|done]. by apply space_prefix_length in E0.
Qed.

(** No white space at the head of [s], and none at its end: no suffix of
    [s] other than the empty one is blank. *)
Definition starts_clean (s : string) : bool :=
  match space_prefix s with Some _ => false | None => true end.

Fixpoint ends_clean (s : string) : bool :=
  match s with
  | EmptyString => true
  | String c s' => negb (Py.blank s) && ends_clean s'
  end.

Lemma ends_clean_unfold (c : ascii) (s : string) :
  ends_clean (String c s) = negb (Py.blank (String c s)) && ends_clean s.
Proof. done. Qed.

Lemma lstrip_starts_clean (s : string) : starts_clean (Py.lstrip s) = true.
Proof. unfold starts_clean. by rewrite lstrip_no_space. Qed.

Lemma rstrip_ends_clean (s : string) : ends_clean (Py.rstrip s) = true.
Proof.
  induction s as [|c s IH]; [done|]. rewrite rstrip_unfold.
  destruct (Py.blank (String c s)) eqn:E; [done|].
  rewrite ends_clean_unfold, IH, andb_true_r.
  apply negb_true_iff. pose proof (blank_rstrip _ E) as H.
  by rewrite rstrip_unfold, E in H.
Qed.

Lemma rstrip_fix (s : string) : ends_clean s = true -> Py.rstrip s = s.
Proof.
  induction s as [|c s IH]; [done|]. rewrite ends_clean_unfold.
  intros [H1 H2]%andb_true_iff. apply negb_true_iff in H1.
  by rewrite rstrip_unfold, H1, IH.
Qed.

Lemma rstrip_starts_clean (s : string) :
  starts_clean s = true -> starts_clean (Py.rstrip s) = true.
Proof.
  unfold starts_clean. destruct s as [|c s]; [done|]. rewrite rstrip_unfold.
  destruct (Py.blank (String c s)); [done|].
  destruct (space_prefix (String c (Py.rstrip s))) as [t|] eqn:E; [|done].
  apply space_prefix_rstrip in E as (t0 & -> & _). done.
Qed.

Lemma strip_fix (s : string) :
  starts_clean s = true -> ends_clean s = true -> Py.strip s = s.
Proof.
  intros H1 H2. unfold Py.strip. rewrite lstrip_fix, rstrip_fix; [done..|].
  unfold starts_clean in H1. by destruct (space_prefix s).
Qed.

(** *** Maps of bytes that leave the white space alone *)

Fixpoint map_bytes (f : ascii -> ascii) (s : string) : string :=
  match s with
  | EmptyString => EmptyString
  | String c s' => String (f c) (map_bytes f s')
  end.

(** A lower-case letter or the underscore. *)
Definition is_word (c : ascii) : bool := Py.is_lower c || Ascii.eqb c "_".

Lemma is_space_not_word (c : ascii) :
  Py.is_space c = true -> is_word c = false.
Proof. by_cases c. Qed.

Lemma is_general_space_not_word (c : ascii) :
  Py.is_general_space c = true -> is_word c = false.
Proof. by_cases c. Qed.

Lemma is_space2_not_word (c1 c2 : ascii) :
  Py.is_space2 c1 c2 = true -> is_word c1 = false /\ is_word c2 = false.
Proof.
  unfold Py.is_space2. intros [H1 H2]%andb_true_iff.
  apply Ascii.eqb_eq in H1 as ->. split; [done|].
  by apply orb_true_iff in H2 as [->%Ascii.eqb_eq | ->%Ascii.eqb_eq].
Qed.

Lemma is_space3_not_word (c1 c2 c3 : ascii) :
  Py.is_space3 c1 c2 c3 = true ->
  is_word c1 = false /\ is_word c2 = false /\ is_word c3 = false.
Proof.
  unfold Py.is_space3. rewrite !orb_true_iff, !andb_true_iff, !Ascii.eqb_eq.
  intros [[[[[-> ->] ->] | [[-> ->] H]] | [[-> ->] ->]] | [[-> ->] ->]];
    try done.
  split_and!; [done..|]. by apply is_general_space_not_word.
Qed.

Section map_bytes.

Variable f : ascii -> ascii.
Hypothesis f_word : forall c, f c = c \/ is_word (f c) = true.

Lemma map_is_space (c : ascii) :
  Py.is_space (f c) = true -> f c = c.
Proof.
  intros H%is_space_not_word. destruct (f_word c) as [E|E]; [done|].
  by rewrite E in H.
Qed.

Lemma map_is_space2 (c1 c2 : ascii) :
  Py.is_space2 (f c1) (f c2) = true -> f c1 = c1 /\ f c2 = c2.
Proof.
  intros [H1 H2]%is_space2_not_word.
  destruct (f_word c1) as [E1|E1], (f_word c2) as [E2|E2]; try done;
    congruence.
Qed.

Lemma map_is_space3 (c1 c2 c3 : ascii) :
  Py.is_space3 (f c1) (f c2) (f c3) = true ->
  f c1 = c1 /\ f c2 = c2 /\ f c3 = c3.
Proof.
  intros (H1 & H2 & H3)%is_space3_not_word.
  destruct (f_word c1) as [E1|E1], (f_word c2) as [E2|E2],
    (f_word c3) as [E3|E3]; try done; congruence.
Qed.

Lemma space_prefix_map (s t : string) :
  space_prefix (map_bytes f s) = Some t ->
  exists t0, space_prefix s = Some t0 /\ t = map_bytes f t0.
Proof.
  destruct s as [|c1 s1]; [done|]. cbn [map_bytes]. unfold space_prefix.
  destruct (Py.is_space (f c1)) eqn:E1.
  { pose proof (map_is_space _ E1) as E. rewrite E in E1. rewrite E1.
    intros [= <-]. by exists s1. }
  destruct s1 as [|c2 s2]; [done|]. cbn [map_bytes].
  destruct (Py.is_space2 (f c1) (f c2)) eqn:E2.
  { destruct (map_is_space2 _ _ E2) as [Ea Eb]. rewrite Ea, Eb in E2.
    rewrite Ea in E1. rewrite E1, E2. intros [= <-]. by exists s2. }
  destruct s2 as [|c3 s3]; [done|]. cbn [map_bytes].
  destruct (Py.is_space3 (f c1) (f c2) (f c3)) eqn:E3; [|done].
  destruct (map_is_space3 _ _ _ E3) as (Ea & Eb & Ec).
  rewrite Ea, Eb, Ec in E3. rewrite Ea in E1. rewrite Ea, Eb in E2.
  rewrite E1, E2, E3. intros [= <-]. by exists s3.
Qed.

Lemma map_bytes_length (s : string) :
  String.length (map_bytes f s) = String.length s.
Proof. induction s as [|c s IH]; [done|]. simpl. by rewrite IH. Qed.

Lemma blank_map (s : string) :
  Py.blank s = false -> Py.blank (map_bytes f s) = false.
Proof.
  induction s as [s IH] using string_length_ind. intros H.
  destruct s as [|c s]; [done|]. cbn [map_bytes]. rewrite blank_unfold.
  destruct (space_prefix (String (f c) (map_bytes f s))) as [t|] eqn:E;
    [|done].
  apply (space_prefix_map (String c s)) in E as (t0 & E0 & ->).
  rewrite blank_unfold, E0 in H.
  apply IH; [|done]. by apply space_prefix_length in E0.
Qed.

Lemma starts_clean_map (s : string) :
  starts_clean s = true -> starts_clean (map_bytes f s) = true.
Proof.
  unfold starts_clean.
  destruct (space_prefix (map_bytes f s)) as [t|] eqn:E; [|done].
  by apply space_prefix_map in E as (t0 & -> & _).
Qed.

Lemma ends_clean_map (s : string) :
  ends_clean s = true -> ends_clean (map_bytes f s) = true.
Proof.
  induction s as [|c s IH]; [done|]. rewrite ends_clean_unfold.
  intros [H1 H2]%andb_true_iff. apply negb_true_iff in H1.
  cbn [map_bytes]. rewrite ends_clean_unfold, IH, andb_true_r by done.
  apply negb_true_iff. by apply (blank_map (String c s)).
Qed.

End map_bytes.

Lemma lower_map_bytes (s : string) : Py.lower s = map_bytes Py.lower_char s.
Proof. induction s as [|c s IH]; [done|]. simpl. by rewrite IH. Qed.

Lemma replace_char_map_bytes (old new : ascii) (s : string) :
  Py.replace_char old new s =
    map_bytes (fun c => if Ascii.eqb c old then new else c) s.
Proof. induction s as [|c s IH]; [done|]. simpl. by rewrite IH. Qed.

Lemma lower_char_word (c : ascii) :
  Py.lower_char c = c \/ is_word (Py.lower_char c) = true.
Proof. destruct c as [[] [] [] [] [] [] [] []]; auto. Qed.

Lemma underscore_word (c : ascii) :
  (if Ascii.eqb c " " then "_"%char else c) = c \/
  is_word (if Ascii.eqb c " " then "_"%char else c) = true.
Proof. destruct (Ascii.eqb c " "); auto. Qed.

Lemma lower_clean (s : string) :
  (starts_clean s = true -> starts_clean (Py.lower s) = true) /\
  (ends_clean s = true -> ends_clean (Py.lower s) = true).
Proof.
  rewrite lower_map_bytes. split.
  - apply starts_clean_map, lower_char_word.
  - apply ends_clean_map, lower_char_word.
Qed.

Lemma replace_space_clean (s : string) :
  (starts_clean s = true ->
   starts_clean (Py.replace_char " " "_" s) = true) /\
  (ends_clean s = true -> ends_clean (Py.replace_char " " "_" s) = true).
Proof.
  rewrite replace_char_map_bytes. split.
  - apply starts_clean_map, underscore_word.
  - apply ends_clean_map, underscore_word.
Qed.

Lemma clean_column_clean (col : string) :
  starts_clean (clean_column col) = true /\
  ends_clean (clean_column col) = true.
Proof.
  unfold clean_column, Py.strip. split.
  - apply replace_space_clean, lower_clean, rstrip_starts_clean,
      lstrip_starts_clean.
  - apply replace_space_clean, lower_clean, rstrip_ends_clean.
Qed.

(** Cleaning a cleaned name changes nothing. *)
Lemma clean_column_idemp (col : string) :
  clean_column (clean_column col) = clean_column col.
Proof.
  destruct (clean_column_clean col) as [H1 H2].
  unfold clean_column at 1. rewrite strip_fix by done.
  unfold clean_column.
  by rewrite lower_replace_space, lower_idemp, replace_space_idemp.
Qed.

(** X2: on a sheet without columns [load_data] raises the
    [AttributeError] of line 21.  On any other sheet it keeps the rows and
    the number of columns, and every column name of the loaded frame is in
    lower case, has no space and no white space at either end, so that
    cleaning it again changes nothing and the [col.lower()] of the column
    searches is the identity on it. *)
Theorem load_data_columns_clean (raw : DataFrame) :
  (columns raw = [] -> load_data (Sheet raw) = inl AttributeError) /\
  (columns raw <> [] ->
   exists df,
     load_data (Sheet raw) = inr df /\
     rows df = rows raw /\
     length (columns df) = length (columns raw) /\
     Forall
       (fun col =>
          Py.lower col = col /\ Py.strip col = col /\
          Py.contains " " col = false /\ clean_column col = col /\
          forall token, has_token token col = Py.contains token col)
       (columns df)).
Proof.
  unfold load_data. split; [by intros ->|]. intros Hc.
  destruct (columns raw) as [|c0 cols] eqn:E; [done|]. rewrite <- E.
  eexists. split; [done|]. cbn [rows columns]. split; [done|].
  split; [by rewrite length_fmap|].
  apply Forall_fmap, Forall_true. intros col. simpl.
  assert (Hl : Py.lower (clean_column col) = clean_column col).
  { unfold clean_column. by rewrite lower_replace_space, lower_idemp. }
  split_and!; [done| | | |].
  - destruct (clean_column_clean col). by apply strip_fix.
  - apply replace_space_no_space.
  - apply clean_column_idemp.
  - intros token. unfold has_token. by rewrite Hl.
Qed.

(** A sheet with headers in mixed case, with blanks and with a
    no-break space (U+00A0) at the end; an empty sheet; and a file that
    cannot be read. *)
Example load_data_sample :
  load_data
    (Sheet (mkDataFrame
              ["  Final Location "; "YEAR"; "Flat Price" ++ String "194" (String "160" "")]
              [])) =
  inr (mkDataFrame ["final_location"; "year"; "flat_price"] []) /\
  load_data (Sheet Pd.DataFrame_) = inl AttributeError /\
  load_data (Unreadable "No such file") = inl (ReadError "No such file").
Proof. repeat split; by vm_compute. Qed.

(** ** Known areas *)

(** An available area has rows: its own spelling matches itself. *)
Lemma known_area_has_rows (df : DataFrame) (a : string) :
  a ∈ get_available_areas df -> has_rows (filter_by_area df a).
Proof.
  intros Ha. destruct (area_columns df) as [|c rest] eqn:E.
  { unfold get_available_areas in Ha. rewrite E in Ha. by inv Ha. }
  destruct (proj1 (get_available_areas_spec df a c rest E) Ha)
    as (r & Hin & Hr).
  rewrite (filter_by_area_rows df a c rest E). unfold has_rows, Pd.empty.
  cbn [columns rows].
  assert (Hne : r ∈ filter (area_equals_ci df c a) (rows df)).
  { apply list_elem_of_filter. split; [by exists a | done]. }
  pose proof (area_columns_In df c rest E).
  destruct (columns df); [done|].
  by destruct (filter _ _); [inv Hne|].
Qed.

Lemma List_filter_sublist {A} (p : A -> bool) (l : list A) :
  List.filter p l `sublist_of` l.
Proof.
  induction l as [|x l IH]; [done|]. simpl.
  destruct (p x); [by apply sublist_skip | by apply sublist_cons].
Qed.

(** ** [_parse_query]: the areas of a query *)

(** X3: the areas found in a query are the available areas whose
    lower-cased name occurs in the lower-cased query, in the order of the
    available areas; each of them has rows. *)
Theorem parse_query_areas (query : string) (df : DataFrame) :
  let areas := (ChatQueryView._parse_query query df).2 in
  areas `sublist_of` get_available_areas df /\
  (forall a,
     a ∈ areas <->
     a ∈ get_available_areas df /\ occurs (Py.lower a) (Py.lower query)) /\
  (forall a, a ∈ areas -> has_rows (filter_by_area df a)).
Proof.
  cbv zeta. unfold ChatQueryView._parse_query. cbn [snd].
  assert (Hin : forall a,
    a ∈ List.filter (fun area => Py.contains (Py.lower area) (Py.lower query))
          (get_available_areas df) <->
    a ∈ get_available_areas df /\ occurs (Py.lower a) (Py.lower query)).
  { intros a. rewrite !list_elem_of_In, filter_In, contains_occurs. done. }
  split; [apply List_filter_sublist|]. split; [done|].
  intros a Ha. apply known_area_has_rows. by apply Hin in Ha as [? _].
Qed.

(** Areas are found whatever the case, and in the order of the available
    areas, not in that of the query. *)
Example parse_query_areas_sample :
  (ChatQueryView._parse_query "wakad or AUNDH?" Sample.seven_areas).2 =
    ["Aundh"; "Wakad"] /\
  (ChatQueryView._parse_query "prices in Pune" Sample.seven_areas).2 = [].
Proof. split; by vm_compute. Qed.

(** ** [get_filtered_table_data] *)

Lemma to_record_keys (df : DataFrame) (r : list cell) :
  (to_record df r).*1 = columns df.
Proof.
  unfold to_record. rewrite <- list_fmap_compose. apply list_fmap_id.
Qed.

(** X4: the table excerpt holds the first [limit] rows of the area, all of
    them when there are fewer; every record lists the columns of the frame
    in their order; an area without rows gives the empty list. *)
Theorem table_data_is_head (df : DataFrame) (area : string) (limit : nat) :
  let matching := rows (filter_by_area df area) in
  let table := get_filtered_table_data df area limit in
  length table = Nat.min limit (length matching) /\
  table = to_record df <$> firstn limit matching /\
  (forall record, record ∈ table -> record.*1 = columns df) /\
  (matching = [] -> table = []).
Proof.
  cbv zeta.
  assert (E : get_filtered_table_data df area limit =
              to_record df <$> firstn limit (rows (filter_by_area df area))).
  { unfold get_filtered_table_data. cbv zeta.
    destruct (Pd.empty (filter_by_area df area)) eqn:He.
    - unfold Pd.empty in He.
      destruct (area_columns df) as [|c rest] eqn:Ec.
      + by rewrite (filter_by_area_no_column df area Ec), firstn_nil.
      + rewrite (filter_by_area_rows df area c rest Ec) in *.
        cbn [columns rows] in *.
        pose proof (area_columns_In df c rest Ec).
        destruct (columns df); [done|].
        destruct (filter _ _); [by rewrite firstn_nil | done].
    - cbn [rows columns]. by rewrite (has_rows_columns df area He). }
  rewrite E. split_and!.
  - by rewrite length_fmap, length_firstn.
  - done.
  - intros record Hr. apply list_elem_of_fmap in Hr as (r & -> & _).
    apply to_record_keys.
  - intros ->. by rewrite firstn_nil.
Qed.

(** Two of the three rows of Wakad, and all three when the limit is 20. *)
Example table_data_sample :
  length (get_filtered_table_data Sample.two_areas "wakad" 2) = 2%nat /\
  length (get_filtered_table_data Sample.two_areas "wakad" 20) = 3%nat /\
  get_filtered_table_data Sample.two_areas "Baner" 20 = [] /\
  get_filtered_table_data Sample.growth_10 "WAKAD" 1 =
    [ [("location", Str "Wakad"); ("year", Num 2020); ("price", Num 100)] ].
Proof. repeat split; by vm_compute. Qed.

(** ** [int(y)] on years *)

Lemma trunc_mono (a b : Qc) : (a <= b)%Qc -> F.trunc a <= F.trunc b.
Proof.
  intros H. unfold F.trunc.
  destruct (Qc_ltb a 0%Z) eqn:Ea; [apply Qc_ltb_lt in Ea | apply Qc_ltb_ge in Ea];
    (destruct (Qc_ltb b 0%Z) eqn:Eb;
       [apply Qc_ltb_lt in Eb | apply Qc_ltb_ge in Eb]).
  - by apply Qceiling_resp_le.
  - transitivity 0.
    + change 0 with (Qceiling (inject_Z 0)). apply Qceiling_resp_le.
      apply Qlt_le_weak. exact Ea.
    + change 0 with (Qfloor (inject_Z 0)). apply Qfloor_resp_le. exact Eb.
  - exfalso. apply (Qclt_not_le _ _ Eb). by apply Qcle_trans with a.
  - by apply Qfloor_resp_le.
Qed.

Lemma trunc_QcZ (z : Z) : F.trunc (QcZ z) = z.
Proof.
  unfold F.trunc, QcZ, Q2Qc. cbn [this].
  destruct (Qc_ltb _ _).
  - rewrite (Qceiling_comp _ _ (Qred_correct _)). apply Qceiling_Z.
  - rewrite (Qfloor_comp _ _ (Qred_correct _)). apply Qfloor_Z.
Qed.

Lemma QcZ_lt (z1 z2 : Z) : (QcZ z1 < QcZ z2)%Qc -> z1 < z2.
Proof.
  unfold Qclt, QcZ, Q2Qc. cbn [this]. rewrite !Qred_correct.
  by rewrite <- Zlt_Qlt.
Qed.

Lemma trunc_keys_sorted (keys : list Qc) :
  StronglySorted Qclt keys -> Sorted Z.le (F.trunc <$> keys).
Proof.
  intros H. apply StronglySorted_Sorted.
  apply (StronglySorted_fmap _ Qclt Z.le); [|done].
  intros a b Hab. apply trunc_mono. by apply Qclt_le_weak.
Qed.

(** Every year of [f] is a whole number. *)
Definition whole_years (f : DataFrame) (year_col : string) : Prop :=
  forall k, has_year f year_col k -> exists z : Z, k = QcZ z.

Lemma trunc_whole_keys_ascending (f : DataFrame) (yc : string) :
  whole_years f yc ->
  StronglySorted Z.lt (F.trunc <$> Pd.group_keys f yc).
Proof.
  intros Hw.
  assert (Hk : Forall (fun k => exists z : Z, k = QcZ z) (Pd.group_keys f yc)).
  { apply list.Forall_forall. intros k Hk. by apply Hw, group_keys_spec. }
  pose proof (group_keys_ascending f yc) as Hs.
  induction Hs as [|k l Hs IH Hkl]; [constructor|].
  apply list.Forall_cons in Hk as [[z ->] Hl]. simpl.
  constructor; [by apply IH|].
  apply list.Forall_fmap, list.Forall_forall. intros k' Hk'. simpl.
  rewrite list.Forall_forall in Hkl, Hl.
  destruct (Hl k' Hk') as [z' ->]. rewrite !trunc_QcZ.
  by apply QcZ_lt, Hkl.
Qed.

(** ** The outcomes of the trend functions *)






(** A table without a demand column: the area has rows, the price trend
    succeeds and the demand trend reports the missing column. *)
Example trend_outcomes_sample :
  Trend.error (get_price_trend Sample.growth_10 "Wakad") = None /\
  Trend.error (get_demand_trend Sample.growth_10 "Wakad") =
    Some "Demand or year data not available" /\
  Trend.error (get_demand_trend Sample.growth_10 "Baner") =
    Some "No data found for Baner".
Proof. repeat split; by vm_compute. Qed.

Ltac trend_aligned :=
  cbv zeta;
  match goal with
  | |- context [Pd.empty ?f] =>
      let E := fresh "E" in
      destruct (Pd.empty f) eqn:E;
      [ cbn; split_and!; try done; constructor
      | rewrite (has_rows_columns _ _ E) ]
  end;
  match goal with
  | |- context [Py.if_both ?x ?y] =>
      let B := fresh "B" in
      let yc := fresh "yc" in
      let col := fresh "col" in
      destruct (Py.if_both x y) as [[yc col]|] eqn:B;
      [ apply if_both_inv in B as [B _];
        cbn [Trend.labels Trend.data];
        rewrite sort_values_groupby_mean, chart_labels_groupby,
          chart_data_groupby;
        split_and!;
        [ by rewrite !length_fmap
        | apply trunc_keys_sorted, group_keys_ascending
        | let yc' := fresh "yc" in
          let Hy := fresh "Hy" in
          intros yc' Hy; rewrite Hy in B; injection B as <-;
          apply trunc_whole_keys_ascending ]
      | cbn; split_and!; try done; constructor ]
  end.

Lemma price_trend_aligned (df : DataFrame) (area : string) :
  length (Trend.labels (get_price_trend df area)) =
    length (Trend.data (get_price_trend df area)) /\
  Sorted Z.le (Trend.labels (get_price_trend df area)) /\
  (forall yc,
     Py.next (has_token "year") (columns df) = Some yc ->
     whole_years (filter_by_area df area) yc ->
     StronglySorted Z.lt (Trend.labels (get_price_trend df area))).
Proof. unfold get_price_trend. trend_aligned. Qed.

Lemma demand_trend_aligned (df : DataFrame) (area : string) :
  length (Trend.labels (get_demand_trend df area)) =
    length (Trend.data (get_demand_trend df area)) /\
  Sorted Z.le (Trend.labels (get_demand_trend df area)) /\
  (forall yc,
     Py.next (has_token "year") (columns df) = Some yc ->
     whole_years (filter_by_area df area) yc ->
     StronglySorted Z.lt (Trend.labels (get_demand_trend df area))).
Proof. unfold get_demand_trend. trend_aligned. Qed.

(** X6: in a trend dictionary the labels and the data have the same
    length, and the labels come in ascending order, strictly so (hence
    without a repeated label) when the years of the area are whole
    numbers. *)
Theorem trend_lists_aligned (df : DataFrame) (area : string) :
  let price := get_price_trend df area in
  let demand := get_demand_trend df area in
  length (Trend.labels price) = length (Trend.data price) /\
  length (Trend.labels demand) = length (Trend.data demand) /\
  Sorted Z.le (Trend.labels price) /\
  Sorted Z.le (Trend.labels demand) /\
  (forall yc,
     Py.next (has_token "year") (columns df) = Some yc ->
     whole_years (filter_by_area df area) yc ->
     StronglySorted Z.lt (Trend.labels price) /\
     StronglySorted Z.lt (Trend.labels demand)).
Proof.
  cbv zeta.
  destruct (price_trend_aligned df area) as (? & ? & Hp).
  destruct (demand_trend_aligned df area) as (? & ? & Hd).
  split_and!; try done. intros yc Hy Hw. split; eauto.
Qed.

(** Two rows of one year whose year values 2020.2 and 2020.7 differ: two
    labels 2020, in ascending but not strictly ascending order. *)
Example fractional_years_repeat_a_label :
  Trend.labels
    (get_price_trend
       (mkDataFrame ["location"; "year"; "price"]
          [ [Str "Wakad"; Num (Q2Qc (20202 # 10)); Num 100];
            [Str "Wakad"; Num (Q2Qc (20207 # 10)); Num 110] ])
       "Wakad") = [2020; 2020].
Proof. by vm_compute. Qed.

(** ** The blocks of [get_summary_stats] *)

Lemma if_is_Some {A} (x : option string) (body : string -> A) :
  (forall s, x = Some s -> s <> "") ->
  is_Some (Py.if_ x body) <-> is_Some x.
Proof.
  intros H. destruct x as [s|]; simpl; [|done].
  destruct (String.eqb_spec s "") as [->|]; [|done].
  by destruct (H "" eq_refl).
Qed.

Lemma next_token_nonempty (token : string) (cols : list string) (s : string) :
  token <> "" -> Py.next (has_token token) cols = Some s -> s <> "".
Proof.
  intros Ht H. apply (has_token_nonempty token); [done|].
  by apply next_Some in H as [_ ?].
Qed.

Lemma next_size_nonempty (df : DataFrame) (cols : list string) (s : string) :
  Py.next (is_size_column df) cols = Some s -> s <> "".
Proof. intros H ->. by apply next_Some in H as [_ ?]. Qed.

(** X7: for an area with rows [get_summary_stats] raises [TypeError]
    when the size column holds text in a row of the area, and otherwise
    returns a summary that names the area, counts its rows (at least one),
    and has the price, the demand and the size block exactly when the
    column of that role is found; the growth block needs both the price
    and the year column. *)
Theorem summary_stats_blocks (df : DataFrame) (area : string) :
  has_rows (filter_by_area df area) ->
  (size_text df area = true -> get_summary_stats df area = inl TypeError) /\
  (size_text df area = false ->
   exists s,
     get_summary_stats df area = inr (Stats.Summary s) /\
     Stats.area s = area /\
     Stats.total_records s = length (rows (filter_by_area df area)) /\
     (0 < Stats.total_records s)%nat /\
     (is_Some (Stats.price s) <->
      is_Some (Py.next (has_token "price") (columns df))) /\
     (is_Some (Stats.demand s) <->
      is_Some (Py.next (has_token "demand") (columns df))) /\
     (is_Some (Stats.avg_size s) <->
      is_Some (Py.next (is_size_column df) (columns df))) /\
     (is_Some (Stats.growth s) ->
      is_Some (Stats.price s) /\
      is_Some (Py.next (has_token "year") (columns df)))).
Proof.
  intros Hr. pose proof Hr as He. unfold has_rows in He.
  split; intros Ht; rewrite get_summary_stats_outcome; cbv zeta;
    rewrite He, Ht; [done|].
  unfold stats_dict. cbv zeta.
  rewrite (has_rows_columns df area Hr). eexists. split; [done|].
  cbn [Stats.area Stats.total_records Stats.price Stats.demand
       Stats.avg_size Stats.growth].
  split_and!; try done.
  - unfold has_rows, Pd.empty in Hr.
    destruct (columns _); [done|]. destruct (rows _); [done|]. simpl. lia.
  - apply if_is_Some. intros s. by apply next_token_nonempty.
  - apply if_is_Some. intros s. by apply next_token_nonempty.
  - apply if_is_Some. intros s. apply next_size_nonempty.
  - intros Hg.
    destruct (Py.if_both _ _) as [[pc yc]|] eqn:B; [|by destruct Hg].
    apply if_both_inv in B as [Hp Hy]. split; [|by rewrite Hy].
    apply if_is_Some; [|by rewrite Hp]. intros s.
    by apply next_token_nonempty.
Qed.

(** Aundh on the sample: two rows, a price, a growth and a demand block,
    no size block. *)
Lemma summary_stats_blocks_witness :
  exists s,
    get_summary_stats Sample.two_areas "aundh" = inr (Stats.Summary s) /\
    Stats.area s = "aundh" /\ Stats.total_records s = 2%nat /\
    is_Some (Stats.price s) /\ is_Some (Stats.demand s) /\
    ~ is_Some (Stats.avg_size s).
Proof.
  destruct (summary_stats_blocks Sample.two_areas "aundh" eq_refl)
    as [_ H].
  destruct (H eq_refl) as (s & Hs & Ha & Hn & _ & Hp & Hd & Hz & _).
  exists s. split_and!; try done.
  - by apply Hp.
  - by apply Hd.
  - intros Hsz. apply Hz in Hsz. by destruct Hsz.
Defined.

(** A size column of text that is not the column of the areas: the
    statistics of an area raise when one of its rows has text there. *)
Example text_size_column_raises :
  let df :=
    mkDataFrame ["location"; "year"; "price"; "size"]
      [ [Str "Wakad"; Num 2020; Num 100; Str "2 BHK"];
        [Str "Aundh"; Num 2020; Num 100; Num 900] ] in
  get_summary_stats df "Wakad" = inl TypeError /\
  exists s, get_summary_stats df "Aundh" = inr (Stats.Summary s).
Proof. split; [reflexivity|]. by eexists. Qed.

(** ** Minimum and maximum *)

Definition fold_min (x : Qc) (l : list Qc) : Qc :=
  fold_right (fun a b => if Qc_ltb a b then a else b) x l.

Definition fold_max (x : Qc) (l : list Qc) : Qc :=
  fold_right (fun a b => if Qc_ltb b a then a else b) x l.

Lemma fold_min_spec (x : Qc) (l : list Qc) :
  fold_min x l ∈ x :: l /\ forall y, y ∈ x :: l -> (fold_min x l <= y)%Qc.
Proof.
  induction l as [|a l [IHin IHle]]; simpl.
  - split; [by left|]. intros y Hy. apply list_elem_of_singleton in Hy as ->.
    apply Qcle_refl.
  - destruct (Qc_ltb a (fold_min x l)) eqn:E;
      [apply Qc_ltb_lt in E | apply Qc_ltb_ge in E].
    + split; [by right; left|]. intros y Hy.
      apply list.elem_of_cons in Hy as [->|Hy].
      * apply Qclt_le_weak, Qclt_le_trans with (fold_min x l); [done|].
        apply IHle. by left.
      * apply list.elem_of_cons in Hy as [->|Hy]; [apply Qcle_refl|].
        apply Qclt_le_weak, Qclt_le_trans with (fold_min x l); [done|].
        apply IHle. by right.
    + split.
      * apply list.elem_of_cons in IHin as [Hx|Hl]; [rewrite Hx; by left|].
        by right; right.
      * intros y Hy. apply list.elem_of_cons in Hy as [->|Hy].
        { apply IHle. by left. }
        apply list.elem_of_cons in Hy as [->|Hy]; [done|].
        apply IHle. by right.
Qed.

Lemma fold_max_spec (x : Qc) (l : list Qc) :
  fold_max x l ∈ x :: l /\ forall y, y ∈ x :: l -> (y <= fold_max x l)%Qc.
Proof.
  induction l as [|a l [IHin IHle]]; simpl.
  - split; [by left|]. intros y Hy. apply list_elem_of_singleton in Hy as ->.
    apply Qcle_refl.
  - destruct (Qc_ltb (fold_max x l) a) eqn:E;
      [apply Qc_ltb_lt in E | apply Qc_ltb_ge in E].
    + split; [by right; left|]. intros y Hy.
      apply list.elem_of_cons in Hy as [->|Hy].
      * apply Qclt_le_weak, Qcle_lt_trans with (fold_max x l); [|done].
        apply IHle. by left.
      * apply list.elem_of_cons in Hy as [->|Hy]; [apply Qcle_refl|].
        apply Qclt_le_weak, Qcle_lt_trans with (fold_max x l); [|done].
        apply IHle. by right.
    + split.
      * apply list.elem_of_cons in IHin as [Hx|Hl]; [rewrite Hx; by left|].
        by right; right.
      * intros y Hy. apply list.elem_of_cons in Hy as [->|Hy].
        { apply IHle. by left. }
        apply list.elem_of_cons in Hy as [->|Hy]; [done|].
        apply IHle. by right.
Qed.

Lemma QcZ_pos (n : nat) : (0 < QcZ (Z.of_nat (S n)))%Qc.
Proof.
  unfold Qclt, QcZ, Q2Qc. cbn [this]. rewrite !Qred_correct.
  unfold Qlt. simpl. lia.
Qed.

Lemma Qcinv_pos (x : Qc) : (0 < x)%Qc -> (0 < / x)%Qc.
Proof.
  unfold Qclt, Qcinv, Q2Qc. cbn [this]. rewrite !Qred_correct.
  apply Qinv_lt_0_compat.
Qed.

(** The values of a series that are not missing. *)
Definition present (s : list (option Qc)) : list Qc := omap id s.

(** On a series, minimum and maximum are [nan] together, when every value
    is missing; otherwise they are values of the series that bound every
    value. *)
Lemma min_max_spec (s : list (option Qc)) :
  (present s = [] /\ Pd.min s = NaN /\ Pd.max s = NaN) \/
  (exists lo hi : Qc,
     Pd.min s = Fin lo /\ Pd.max s = Fin hi /\
     Some lo ∈ s /\ Some hi ∈ s /\
     (forall v, Some v ∈ s -> (lo <= v)%Qc /\ (v <= hi)%Qc)).
Proof.
  assert (Hin : forall v, v ∈ present s <-> Some v ∈ s).
  { intros v. unfold present. rewrite list_elem_of_omap. split.
    - by intros ([w|] & Hw & [= ->]).
    - intros H. by exists (Some v). }
  unfold Pd.min, Pd.max. fold (present s) in *.
  destruct (present s) as [|x l]; [by left|]. right.
  destruct (fold_min_spec x l) as [Hlo_in Hlo].
  destruct (fold_max_spec x l) as [Hhi_in Hhi].
  eexists _, _. split_and!; try done.
  - by apply Hin.
  - by apply Hin.
  - intros v Hv. apply Hin in Hv. split; [by apply Hlo | by apply Hhi].
Qed.

(** [lo] and [hi] are the least and the greatest number that the rows of
    the area hold in the column [col], or both [nan] when they hold no
    number there. *)
Definition column_range (df : DataFrame) (area col : string)
    (lo hi : pyfloat) : Prop :=
  let matching := rows (filter_by_area df area) in
  (lo = NaN /\ hi = NaN /\
   forall r v, r ∈ matching -> Pd.at_ df col r <> Num v) \/
  (exists a b : Qc,
     lo = Fin a /\ hi = Fin b /\
     (exists r, r ∈ matching /\ Pd.at_ df col r = Num a) /\
     (exists r, r ∈ matching /\ Pd.at_ df col r = Num b) /\
     forall r v, r ∈ matching -> Pd.at_ df col r = Num v ->
       (a <= v)%Qc /\ (v <= b)%Qc).

Lemma numbers_Some (df : DataFrame) (area col : string) (v : Qc) :
  has_rows (filter_by_area df area) ->
  Some v ∈ Pd.numbers (filter_by_area df area) col <->
  exists r, r ∈ rows (filter_by_area df area) /\ Pd.at_ df col r = Num v.
Proof.
  intros Hr. unfold Pd.numbers, Pd.at_.
  rewrite (has_rows_columns df area Hr), list_elem_of_fmap. split.
  - intros (r & E & Hin). exists r. split; [done|].
    by destruct (nth _ r NA); simplify_eq/=.
  - intros (r & Hin & E). exists r. by rewrite E.
Qed.

Lemma min_max_column_range (df : DataFrame) (area col : string) :
  has_rows (filter_by_area df area) ->
  column_range df area col
    (Pd.min (Pd.numbers (filter_by_area df area) col))
    (Pd.max (Pd.numbers (filter_by_area df area) col)).
Proof.
  intros Hr. unfold column_range. cbv zeta.
  destruct (min_max_spec (Pd.numbers (filter_by_area df area) col))
    as [(He & -> & ->) | (lo & hi & -> & -> & Hlo & Hhi & Hb)].
  - left. split_and!; [done..|]. intros r v Hin E.
    assert (Hv : v ∈ present (Pd.numbers (filter_by_area df area) col)).
    { unfold present. apply list_elem_of_omap. exists (Some v).
      split; [|done]. apply numbers_Some; [done|]. by exists r. }
    rewrite He in Hv. by inv Hv.
  - right. exists lo, hi. split_and!; try done.
    + by apply numbers_Some in Hlo.
    + by apply numbers_Some in Hhi.
    + intros r v Hin E. apply Hb, numbers_Some; [done|]. by exists r.
Qed.

(** X8: in every summary that [get_summary_stats] returns, the minimum
    and the maximum of the price block are the least and the greatest
    price among the rows of the area, in the first price column, and both
    are [nan] when these rows hold no price; the same for the demand
    block and the first demand column. *)
Theorem summary_stats_min_max (df : DataFrame) (area : string)
    (s : Stats.summary) :
  get_summary_stats df area = inr (Stats.Summary s) ->
  (forall p, Stats.price s = Some p ->
     exists col,
       Py.next (has_token "price") (columns df) = Some col /\
       column_range df area col (Stats.min_price p) (Stats.max_price p)) /\
  (forall d, Stats.demand s = Some d ->
     exists col,
       Py.next (has_token "demand") (columns df) = Some col /\
       column_range df area col (Stats.min_demand d) (Stats.max_demand d)).
Proof.
  rewrite get_summary_stats_outcome. cbv zeta.
  destruct (Pd.empty (filter_by_area df area)) eqn:He; [done|].
  destruct (size_text df area); [done|]. intros [= <-].
  unfold stats_dict. cbv zeta. cbn [Stats.price Stats.demand].
  rewrite (has_rows_columns df area He). split.
  - intros p Hp. unfold Py.if_ in Hp.
    destruct (Py.next (has_token "price") (columns df)) as [pc|]; [|done].
    destruct (String.eqb pc ""); [done|]. injection Hp as <-.
    exists pc. split; [done|]. by apply min_max_column_range.
  - intros d Hd. unfold Py.if_ in Hd.
    destruct (Py.next (has_token "demand") (columns df)) as [dc|]; [|done].
    destruct (String.eqb dc ""); [done|]. injection Hd as <-.
    exists dc. split; [done|]. by apply min_max_column_range.
Qed.

(** Aundh on the sample: prices 80 and 90; demand 40 in one row and
    missing in the other. *)
Lemma summary_stats_min_max_witness :
  exists s p d,
    get_summary_stats Sample.two_areas "Aundh" = inr (Stats.Summary s) /\
    Stats.price s = Some p /\ Stats.demand s = Some d /\
    column_range Sample.two_areas "Aundh" "price"
      (Stats.min_price p) (Stats.max_price p) /\
    column_range Sample.two_areas "Aundh" "demand_index"
      (Stats.min_demand d) (Stats.max_demand d) /\
    Fmt.fixed false 1 (Stats.min_price p) = "80.0" /\
    Fmt.fixed false 1 (Stats.max_price p) = "90.0" /\
    Fmt.fixed false 1 (Stats.min_demand d) = "40.0" /\
    Fmt.fixed false 1 (Stats.max_demand d) = "40.0".
Proof.
  eexists _, _, _. split; [reflexivity|].
  split; [reflexivity|]. split; [reflexivity|].
  destruct (summary_stats_min_max Sample.two_areas "Aundh" _ eq_refl)
    as [Hp Hd].
  destruct (Hp _ eq_refl) as (pc & [= <-] & Hpr).
  destruct (Hd _ eq_refl) as (dc & [= <-] & Hdr).
  split; [exact Hpr|]. split; [exact Hdr|].
  split_and!; by vm_compute.
Defined.

(** The binary64 mean of a series can leave the range of its values: the
    mean of 0.1, 0.1 and 0.1 is above 0.1. *)
Example mean_binary64_above_max :
  Binary64.mean3 Binary64.one_tenth Binary64.one_tenth Binary64.one_tenth
    = Binary64.above_one_tenth /\
  Binary64.lt Binary64.one_tenth Binary64.above_one_tenth = true.
Proof. split; reflexivity. Qed.

(** ** The direction of the growth *)

Lemma growth_scaled (first last : Qc) :
  first <> QcZ 0 ->
  growth (Fin first) (Fin last) =
    Fin ((last - first) * (/ first * QcZ 100))%Qc.
Proof.
  intros H. rewrite growth_finite by done. f_equal. unfold Qcdiv. ring.
Qed.

Lemma Qc_hundred_pos : (0 < QcZ 100)%Qc.
Proof. reflexivity. Qed.

Lemma Qcmult_pos (a b : Qc) : (0 < a)%Qc -> (0 < b)%Qc -> (0 < a * b)%Qc.
Proof.
  intros Ha Hb. rewrite <- (Qcmult_0_l b). by apply Qcmult_lt_compat_r.
Qed.

Lemma Qc_minus_pos (a b : Qc) : (a < b)%Qc -> (0 < b - a)%Qc.
Proof. apply (proj1 (Qclt_minus_iff a b)). Qed.

Ltac Qc_absurd :=
  exfalso;
  match goal with
  | H : (?a < ?b)%Qc, H' : (?b < ?a)%Qc |- _ =>
      exact (Qclt_not_le _ _ H (Qclt_le_weak _ _ H'))
  | H : (?a < ?a)%Qc |- _ => exact (Qclt_not_eq _ _ H eq_refl)
  | H : (?a < ?b)%Qc, H' : ?b = ?a |- _ =>
      rewrite H' in H; exact (Qclt_not_eq _ _ H eq_refl)
  | H : (?a < ?b)%Qc, H' : ?a = ?b |- _ =>
      rewrite H' in H; exact (Qclt_not_eq _ _ H eq_refl)
  end.

(** With a positive first mean the growth has the sign of
    [last - first]. *)
Lemma growth_sign_pos (first last : Qc) :
  (0 < first)%Qc ->
  exists g,
    growth (Fin first) (Fin last) = Fin g /\
    ((first < last)%Qc -> (0 < g)%Qc) /\
    ((last < first)%Qc -> (g < 0)%Qc) /\
    (last = first -> g = QcZ 0).
Proof.
  intros Hf.
  rewrite growth_scaled by (intros ->; by apply (Qclt_not_eq _ _ Hf)).
  eexists. split; [done|].
  set (c := (/ first * QcZ 100)%Qc).
  assert (Hc : (0 < c)%Qc).
  { apply Qcmult_pos; [by apply Qcinv_pos | apply Qc_hundred_pos]. }
  split_and!.
  - intros H. apply Qcmult_pos; [by apply Qc_minus_pos | done].
  - intros H. rewrite <- (Qcmult_0_l c). apply Qcmult_lt_compat_r; [done|].
    apply (proj2 (Qclt_minus_iff _ _)).
    replace (0 + - (last - first))%Qc with (first - last)%Qc by ring.
    by apply Qc_minus_pos.
  - intros ->. change (QcZ 0) with 0%Qc. ring.
Qed.

(** X9: when the mean price of the first year is positive, the narrative
    says "increased" exactly when the mean of the last year is higher,
    "decreased" exactly when it is lower, and "remained stable" exactly
    when the two are equal. *)
Theorem trend_word_direction (first last : Qc) :
  (0 < first)%Qc ->
  let g := growth (Fin first) (Fin last) in
  (trend_word g = "increased" <-> (first < last)%Qc) /\
  (trend_word g = "decreased" <-> (last < first)%Qc) /\
  (trend_word g = "remained stable" <-> last = first).
Proof.
  intros Hf. cbv zeta.
  destruct (growth_sign_pos first last Hf) as (g & -> & Hup & Hdown & Heq).
  unfold trend_word, F.gtb, F.ltb.
  destruct (Qc_dec first last) as [[Hlt|Hgt]|Heq'].
  - specialize (Hup Hlt). rewrite (proj2 (Qc_ltb_lt _ _) Hup).
    split_and!; split; intros H; first [done | Qc_absurd].
  - specialize (Hdown Hgt).
    rewrite (proj2 (Qc_ltb_ge _ _) (Qclt_le_weak _ _ Hdown)).
    rewrite (proj2 (Qc_ltb_lt _ _) Hdown).
    split_and!; split; intros H; first [done | Qc_absurd].
  - subst last. rewrite (Heq eq_refl).
    change (Qc_ltb (QcZ 0) (QcZ 0)) with false. cbn match.
    split_and!; split; intros H; first [done | Qc_absurd].
Qed.

(** Mean prices 100 and 110: "increased". *)
Lemma trend_word_direction_witness :
  trend_word (growth (Fin 100) (Fin 110)) = "increased".
Proof.
  apply (trend_word_direction 100 110); reflexivity.
Defined.

(** In binary64 arithmetic the growth can overflow: from a first mean of
    0.001 to a last mean of 1e304 it is [inf], which the narrative still
    words as an increase. *)
Example growth_binary64_overflow :
  Binary64.growth Binary64.one_thousandth Binary64.ten_to_304 =
    Binary64.infinity /\
  trend_word (Inf false) = "increased".
Proof. split; reflexivity. Qed.

(** With a negative first mean the words are the other way round, and
    with a first mean of zero the growth is not finite. *)
Example trend_word_edge_cases :
  trend_word (growth (Fin (-100)) (Fin (-50))) = "decreased" /\
  trend_word (growth (Fin 0) (Fin 50)) = "increased" /\
  Fmt.fixed false 2 (F.abs (growth (Fin 0) (Fin 50))) = "inf" /\
  trend_word (growth (Fin 0) (Fin 0)) = "remained stable" /\
  Fmt.fixed false 2 (F.abs (growth (Fin 0) (Fin 0))) = "nan".
Proof. repeat split; by vm_compute. Qed.

(** ** The year range of the headline and the price chart *)





(** ** A comparison and the single trends *)

Lemma get_price_trend_ok (df : DataFrame) (area yc pc : string) :
  has_rows (filter_by_area df area) ->
  Py.next (has_token "year") (columns df) = Some yc ->
  Py.next (has_token "price") (columns df) = Some pc ->
  Trend.labels (get_price_trend df area) =
    F.trunc <$> Pd.group_keys (filter_by_area df area) yc /\
  Trend.data (get_price_trend df area) =
    rounded_mean (filter_by_area df area) yc pc <$>
      Pd.group_keys (filter_by_area df area) yc.
Proof.
  intros Hr Hy Hp. unfold get_price_trend. cbv zeta.
  rewrite Hr, (has_rows_columns df area Hr), Hy, Hp.
  rewrite if_both_Some;
    [| by apply (next_token_nonempty "year" (columns df))
     | by apply (next_token_nonempty "price" (columns df))].
  cbn [Trend.labels Trend.data].
  by rewrite sort_values_groupby_mean, chart_labels_groupby,
    chart_data_groupby.
Qed.

Lemma get_demand_trend_ok (df : DataFrame) (area yc dc : string) :
  has_rows (filter_by_area df area) ->
  Py.next (has_token "year") (columns df) = Some yc ->
  Py.next (has_token "demand") (columns df) = Some dc ->
  Trend.labels (get_demand_trend df area) =
    F.trunc <$> Pd.group_keys (filter_by_area df area) yc /\
  Trend.data (get_demand_trend df area) =
    rounded_mean (filter_by_area df area) yc dc <$>
      Pd.group_keys (filter_by_area df area) yc.
Proof.
  intros Hr Hy Hp. unfold get_demand_trend. cbv zeta.
  rewrite Hr, (has_rows_columns df area Hr), Hy, Hp.
  rewrite if_both_Some;
    [| by apply (next_token_nonempty "year" (columns df))
     | by apply (next_token_nonempty "demand" (columns df))].
  cbn [Trend.labels Trend.data].
  by rewrite sort_values_groupby_mean, chart_labels_groupby,
    chart_data_groupby.
Qed.

Lemma trend_labels_no_rows (df : DataFrame) (area : string) :
  ~ has_rows (filter_by_area df area) ->
  Trend.labels (get_price_trend df area) = [] /\
  Trend.labels (get_demand_trend df area) = [].
Proof.
  unfold has_rows, get_price_trend, get_demand_trend. cbv zeta.
  by destruct (Pd.empty (filter_by_area df area)).
Qed.

Lemma compare_areas_ok (df : DataFrame) (areas : list string)
    (metric yc mc : string) :
  Py.lower metric = metric -> metric <> "" ->
  Py.next (has_token "year") (columns df) = Some yc ->
  Py.next (has_token metric) (columns df) = Some mc ->
  compare_areas df areas metric =
    Comparison.mk
      (sorted_years (⋃ (area_years df yc <$> areas_with_rows df areas)))
      (area_dataset df yc mc <$> areas_with_rows df areas)
      (Py.capitalize metric ++ " Comparison").
Proof.
  intros Hl Hne Hy Hm. unfold compare_areas. rewrite Hl, Hy, Hm.
  rewrite if_both_Some;
    [| by apply (next_token_nonempty "year" (columns df))
     | by apply (next_token_nonempty metric (columns df))].
  rewrite compare_loop. by rewrite app_nil_l, (left_id_L ∅ (∪)).
Qed.

(** X11: a comparison on "price" holds, for every compared area that has
    rows, the very data of its price trend, and its labels are the labels
    of these price trends put together; the same for "demand" and the
    demand trends. *)
Theorem comparison_series_are_trends (df : DataFrame) (areas : list string)
    (yc : string) :
  Py.next (has_token "year") (columns df) = Some yc ->
  (forall pc,
     Py.next (has_token "price") (columns df) = Some pc ->
     Comparison.datasets (compare_areas df areas "price") =
       (fun area =>
          Comparison.mkDataset area (Trend.data (get_price_trend df area)))
       <$> filter (fun area => has_rows (filter_by_area df area)) areas /\
     forall y,
       y ∈ Comparison.labels (compare_areas df areas "price") <->
       exists area,
         area ∈ areas /\ y ∈ Trend.labels (get_price_trend df area)) /\
  (forall dc,
     Py.next (has_token "demand") (columns df) = Some dc ->
     Comparison.datasets (compare_areas df areas "demand") =
       (fun area =>
          Comparison.mkDataset area (Trend.data (get_demand_trend df area)))
       <$> filter (fun area => has_rows (filter_by_area df area)) areas /\
     forall y,
       y ∈ Comparison.labels (compare_areas df areas "demand") <->
       exists area,
         area ∈ areas /\ y ∈ Trend.labels (get_demand_trend df area)).
Proof.
  intros Hy. split.
  - intros pc Hp.
    rewrite (compare_areas_ok df areas "price" yc pc) by done.
    cbn [Comparison.datasets Comparison.labels]. split.
    + apply list_fmap_ext. intros i area Hi.
      apply list_elem_of_lookup_2, list_elem_of_filter in Hi as [Hr _].
      unfold area_dataset. cbv zeta.
      by destruct (get_price_trend_ok df area yc pc Hr Hy Hp) as [_ ->].
    + intros y. rewrite elem_of_sorted_years, elem_of_loop_years. split.
      * intros (area & k & Ha & Hr & Hk & <-). exists area. split; [done|].
        destruct (get_price_trend_ok df area yc pc Hr Hy Hp) as [-> _].
        apply list_elem_of_fmap. exists k. by rewrite group_keys_spec.
      * intros (area & Ha & Hin).
        destruct (decide (has_rows (filter_by_area df area))) as [Hr|Hr].
        -- destruct (get_price_trend_ok df area yc pc Hr Hy Hp) as [E _].
           rewrite E in Hin. apply list_elem_of_fmap in Hin as (k & -> & Hk).
           exists area, k. split_and!; try done. by apply group_keys_spec.
        -- destruct (trend_labels_no_rows df area Hr) as [E _].
           rewrite E in Hin. by inv Hin.
  - intros dc Hd.
    rewrite (compare_areas_ok df areas "demand" yc dc) by done.
    cbn [Comparison.datasets Comparison.labels]. split.
    + apply list_fmap_ext. intros i area Hi.
      apply list_elem_of_lookup_2, list_elem_of_filter in Hi as [Hr _].
      unfold area_dataset. cbv zeta.
      by destruct (get_demand_trend_ok df area yc dc Hr Hy Hd) as [_ ->].
    + intros y. rewrite elem_of_sorted_years, elem_of_loop_years. split.
      * intros (area & k & Ha & Hr & Hk & <-). exists area. split; [done|].
        destruct (get_demand_trend_ok df area yc dc Hr Hy Hd) as [-> _].
        apply list_elem_of_fmap. exists k. by rewrite group_keys_spec.
      * intros (area & Ha & Hin).
        destruct (decide (has_rows (filter_by_area df area))) as [Hr|Hr].
        -- destruct (get_demand_trend_ok df area yc dc Hr Hy Hd) as [E _].
           rewrite E in Hin. apply list_elem_of_fmap in Hin as (k & -> & Hk).
           exists area, k. split_and!; try done. by apply group_keys_spec.
        -- destruct (trend_labels_no_rows df area Hr) as [_ E].
           rewrite E in Hin. by inv Hin.
Qed.

(** The price comparison of the sample and the two price trends. *)
Lemma comparison_series_are_trends_witness :
  Comparison.datasets
    (compare_areas Sample.two_areas ["Wakad"; "Baner"; "Aundh"] "price") =
  [ Comparison.mkDataset "Wakad"
      (Trend.data (get_price_trend Sample.two_areas "Wakad"));
    Comparison.mkDataset "Aundh"
      (Trend.data (get_price_trend Sample.two_areas "Aundh")) ].
Proof.
  destruct (comparison_series_are_trends Sample.two_areas
              ["Wakad"; "Baner"; "Aundh"] "year" eq_refl) as [Hp _].
  destruct (Hp "price" eq_refl) as [-> _]. reflexivity.
Defined.

(** * Properties of the chat view *)

Import ChatQueryView.

(** ** Blank queries *)



(** ** Helper facts on the handlers *)






(** ** [_handle_single_area_analysis] *)


(** Wakad has rows but the table has no demand column: the result of a
    demand query carries statistics, a table, and a chart that is an error
    dictionary.  On the sheet whose area column is also its size column
    the handler raises. *)
Example single_area_chart_error :
  (exists r,
     _handle_single_area_analysis "Wakad" "demand" Sample.growth_10 = inr r /\
     chart_ r =
       ChartTrend
         (Trend.mk [] [] None None
            (Some "Demand or year data not available")) /\
     length (table r) = 2%nat) /\
  _handle_single_area_analysis "Wakad" "price" Sample.area_size =
    inl TypeError.
Proof. split; [|reflexivity]. eexists. split; [reflexivity|]. by vm_compute. Qed.

(** ** [post] *)






(** A query of blanks, here a tab, a no-break space (U+00A0) and an
    ideographic space (U+3000), is refused even when the sheet cannot be
    read; an unreadable sheet, an empty sheet and a sheet whose area
    column is also its size column give 500. *)
Example post_statuses :
  post (Unreadable "No such file")
    (Some (String "009" (String "194" (String "160"
       (String "227" (String "128" (String "128" ""))))))) =
    mkResponse (Error "Query is required") HTTP_400_BAD_REQUEST /\
  post (Unreadable "No such file") None =
    mkResponse (Error "Query is required") HTTP_400_BAD_REQUEST /\
  post (Unreadable "No such file") (Some "Analyze Wakad") =
    mkResponse (ProcessingError (ReadError "No such file"))
      HTTP_500_INTERNAL_SERVER_ERROR /\
  post (Sheet Pd.DataFrame_) (Some "Analyze Wakad") =
    mkResponse (ProcessingError AttributeError)
      HTTP_500_INTERNAL_SERVER_ERROR /\
  post (Sheet Sample.area_size) (Some "Analyze Wakad") =
    mkResponse (ProcessingError TypeError) HTTP_500_INTERNAL_SERVER_ERROR /\
  status_ (post (Sheet Sample.growth_10) (Some "Analyze Wakad")) =
    HTTP_200_OK.
Proof. repeat split; by vm_compute. Qed.





(** ** The series of a comparison against its labels *)

Lemma StronglySorted_lt_NoDup (l : list Z) : StronglySorted Z.lt l -> NoDup l.
Proof.
  induction 1 as [|x l Hs IH Hx]; [constructor|].
  apply list.NoDup_cons. split; [|done].
  intros Hin. rewrite list.Forall_forall in Hx. specialize (Hx x Hin). lia.
Qed.

Lemma compare_areas_found (df : DataFrame) (areas : list string)
    (metric yc mc : string) :
  Py.next (has_token "year") (columns df) = Some yc ->
  Py.next (has_token (Py.lower metric)) (columns df) = Some mc ->
  mc <> "" ->
  compare_areas df areas metric =
    Comparison.mk
      (sorted_years (⋃ (area_years df yc <$> areas_with_rows df areas)))
      (area_dataset df yc mc <$> areas_with_rows df areas)
      (Py.capitalize metric ++ " Comparison").
Proof.
  intros Hy Hm Hmc. unfold compare_areas. rewrite Hy, Hm.
  rewrite if_both_Some; [| |done]; cycle 1.
  { apply (has_token_nonempty "year"); [done|].
    by apply next_Some in Hy as [_ ?]. }
  rewrite compare_loop. by rewrite app_nil_l, (left_id_L ∅ (∪)).
Qed.

(** X15: the series of a comparison are not padded to its labels.  When a
    year column and a non-empty column for the metric are found and the
    years of the compared areas are whole numbers, no series is longer
    than the list of labels, and a series is as long as the labels exactly
    when its area has a row for every labelled year; the series of an area
    that lacks one of the years is shorter. *)
Theorem comparison_series_not_padded (df : DataFrame) (areas : list string)
    (metric yc mc : string) :
  Py.next (has_token "year") (columns df) = Some yc ->
  Py.next (has_token (Py.lower metric)) (columns df) = Some mc ->
  mc <> "" ->
  (forall area, area ∈ areas -> whole_years (filter_by_area df area) yc) ->
  let result := compare_areas df areas metric in
  Forall
    (fun ds =>
       let f := filter_by_area df (Comparison.label ds) in
       (length (Comparison.data ds) <= length (Comparison.labels result))%nat /\
       (length (Comparison.data ds) = length (Comparison.labels result) <->
        forall y, y ∈ Comparison.labels result ->
          exists k, has_year f yc k /\ F.trunc k = y))
    (Comparison.datasets result).
Proof.
  intros Hy Hm Hmc Hw. cbv zeta.
  rewrite (compare_areas_found df areas metric yc mc) by done.
  cbn [Comparison.labels Comparison.datasets].
  apply list.Forall_fmap, list.Forall_forall. intros area Ha.
  assert (Hin : area ∈ areas).
  { unfold areas_with_rows in Ha.
    by apply list_elem_of_filter in Ha as [_ ?]. }
  unfold compose, area_dataset. cbv beta zeta.
  cbn [Comparison.label Comparison.data]. rewrite length_fmap.
  set (f := filter_by_area df area).
  set (labels := sorted_years _).
  set (years := F.trunc <$> Pd.group_keys f yc).
  assert (Hlen : length (Pd.group_keys f yc) = length years)
    by (unfold years; by rewrite length_fmap).
  assert (Hny : NoDup years).
  { apply StronglySorted_lt_NoDup, trunc_whole_keys_ascending.
    by apply Hw. }
  assert (Hnl : NoDup labels).
  { apply StronglySorted_lt_NoDup, sorted_years_ascending. }
  assert (Hsub : forall y, y ∈ years -> y ∈ labels).
  { intros y Hyin. unfold labels. rewrite elem_of_sorted_years.
    apply elem_of_union_list. exists (area_years df yc area). split.
    - apply list_elem_of_fmap. by exists area.
    - unfold area_years. by apply elem_of_list_to_set. }
  assert (Hyear : forall y,
            y ∈ years <-> exists k, has_year f yc k /\ F.trunc k = y).
  { intros y. unfold years. rewrite list_elem_of_fmap. split.
    - intros (k & -> & Hk). exists k. by rewrite <- group_keys_spec.
    - intros (k & Hk & <-). exists k. by rewrite group_keys_spec. }
  pose proof (NoDup_submseteq years labels Hny Hsub) as Hms.
  rewrite Hlen. split; [by apply submseteq_length|]. split.
  - intros Heq y Hyl. apply Hyear.
    assert (Hp : years ≡ₚ labels).
    { apply submseteq_length_Permutation; [done | lia]. }
    by rewrite Hp.
  - intros Hall. apply Nat.le_antisymm; [by apply submseteq_length|].
    apply submseteq_length, NoDup_submseteq; [done|].
    intros y Hyl. by apply Hyear, Hall.
Qed.

(** On the sample with disjoint years each of the two series has two
    values for the four labels. *)
Lemma comparison_series_not_padded_witness :
  let result := compare_areas Sample.two_areas ["Wakad"; "Aundh"] "price" in
  Comparison.labels result = [2018; 2019; 2020; 2021] /\
  Forall
    (fun ds =>
       (length (Comparison.data ds) <= length (Comparison.labels result))%nat)
    (Comparison.datasets result) /\
  (length <$> (Comparison.data <$> Comparison.datasets result)) =
    [2%nat; 2%nat].
Proof.
  cbv zeta. split; [reflexivity|]. split; [|reflexivity].
  eapply list.Forall_impl;
    [apply (comparison_series_not_padded Sample.two_areas
              ["Wakad"; "Aundh"] "price" "year" "price"
              eq_refl eq_refl ltac:(done))
    |by intros ds [H _]].
  intros area Ha k Hk. apply group_keys_spec in Hk.
  apply list.elem_of_cons in Ha as [->|Ha];
    [|apply list.elem_of_cons in Ha as [->|Ha]; [|by inv Ha]].
  - vm_compute in Hk.
    apply list.elem_of_cons in Hk as [->|Hk];
      [exists 2020; by apply Qc_is_canon|].
    apply list.elem_of_cons in Hk as [->|Hk];
      [exists 2021; by apply Qc_is_canon|].
    by inv Hk.
  - vm_compute in Hk.
    apply list.elem_of_cons in Hk as [->|Hk];
      [exists 2018; by apply Qc_is_canon|].
    apply list.elem_of_cons in Hk as [->|Hk];
      [exists 2019; by apply Qc_is_canon|].
    by inv Hk.
Defined.
